(** * shortbus pipe-mode client (examples/client.py): model and properties

    The development embeds [ShortbusClient] as state-passing functions over
    a record holding the object's fields.  The reader thread and the caller
    threads are modelled by the atomic pieces they execute: the body of the
    read loop, the part of a facade call before [event.wait] and the part
    after it.  The wait itself is the interleaving of these pieces: what the
    reader processed between the two parts of a call is what arrived in time.

    Conventions of the model:
    - a callback is identified by the address of the [result] dictionary and
      the [threading.Event] it closes over;
    - a subscriber callback is a function of the message telling how the
      call ends; it does not call back into the client;
    - [json.loads] is a parameter of the read loop;
    - the pipe is closed by the client only: a write on the open pipe
      succeeds, a write on a closed one raises; a pipe broken because the
      broker went away is outside the model, so what is said of a write
      that succeeds is said of a pipe whose other end is still there;
    - every effect (a handler call, a line on the error stream, a write) is
      recorded in a trace, together with the state it happened in. *)

From Stdlib Require Import ZArith String Ascii List.
From stdpp Require Import gmap strings list fin_maps.

Set Warnings "-register-all".

Open Scope string_scope.
Open Scope list_scope.
Open Scope Z_scope.

(** ** JSON values as produced by [json.loads] *)

(** A Python float: a finite value [m * 2^e], an infinity or a NaN. *)
Inductive pyfloat :=
  | FFinite (m e : Z)
  | FInf (negative : bool)
  | FNaN.

Inductive json :=
  | JNull
  | JBool (b : bool)
  | JInt (z : Z)
  | JFloat (f : pyfloat)
  | JStr (s : string)
  | JList (l : list json)
  | JDict (d : gmap string json).

(** [Dict[str, Any]]: the decoded record handed to [_handle_response]. *)
Abbreviation record := (gmap string json).

(** [d.get(key)]: [None] when the key is missing. *)
Definition get (key : string) (d : record) : json :=
  default JNull (d !! key).

(** [d.get(key, dflt)]. *)
Definition get_or (key : string) (dflt : json) (d : record) : json :=
  default dflt (d !! key).

(** [v == s] for a string literal [s]: a [str] equals only an equal [str]. *)
Definition eq_str (v : json) (s : string) : bool :=
  match v with
  | JStr s' => bool_decide (s' = s)
  | _ => false
  end.

(** ** Dictionary membership *)

(** [list] and [dict] values are unhashable: [v in d] raises [TypeError]
    for them.  Every other JSON value is hashable. *)
Definition hashable (v : json) : bool :=
  match v with
  | JList _ | JDict _ => false
  | _ => true
  end.

(** The integer a float is numerically equal to, if any. *)
Definition float_as_int (f : pyfloat) : option Z :=
  match f with
  | FFinite m e =>
      if 0 <=? e then Some (m * 2 ^ e)
      else if m mod 2 ^ (- e) =? 0 then Some (m / 2 ^ (- e))
      else None
  | FInf _ | FNaN => None
  end.

(** The [int] key a hashable value is equal to (and hashes like), if any:
    [True == 1], [False == 0], [1.0 == 1]. *)
Definition int_key (v : json) : option Z :=
  match v with
  | JBool b => Some (if b then 1 else 0)
  | JInt z => Some z
  | JFloat f => float_as_int f
  | _ => None
  end.

(** The [str] key a hashable value is equal to, if any. *)
Definition str_key (v : json) : option string :=
  match v with
  | JStr s => Some s
  | _ => None
  end.

(** ** Exceptions, outcomes and events *)

Inductive exn :=
  | TimeoutError (msg : string)
  | PyException (arg : json)          (* [raise Exception(arg)] *)
  | TypeError                         (* unhashable type *)
  | AttributeError                    (* [.get] on a value that is no dict *)
  | ValueError                        (* I/O operation on closed file *)
  | OtherException (msg : string)     (* any other subclass of [Exception] *)
  | BaseExit.                         (* a [BaseException] outside [Exception] *)

(** What [except Exception] catches. *)
Definition is_Exception (e : exn) : bool :=
  match e with
  | BaseExit => false
  | _ => true
  end.

Inductive outcome (A : Type) :=
  | Ok (a : A)
  | Raise (e : exn).
Arguments Ok {A} a.
Arguments Raise {A} e.

(** A subscriber callback, observed through how a call to it ends. *)
Inductive handler_outcome :=
  | HReturn
  | HRaise (e : string)     (* raises an [Exception]; [e] is its text *)
  | HExit.                  (* raises a [BaseException] outside [Exception] *)

Definition handler := record -> handler_outcome.

(** Lines printed on [sys.stderr]. *)
Inductive stderr_line :=
  | ParseErrorLine (e : string)     (* [Parse error: {e}] *)
  | ReaderErrorLine (e : exn)       (* [Reader error: {e}] *)
  | HandlerErrorLine (e : string)   (* [Handler error: {e}] *)
  | ErrorLine (v : json).           (* [Error: {data.get('error')}] *)

Inductive event :=
  | EInvoke (h : handler) (data : record)   (* [handler(data)] is called *)
  | EPrint (l : stderr_line)
  | EWrite (command : record)               (* [stdin.write] of the dumped command *)
  | EClose.                                 (* [stdin.close()] *)

(** ** The client object *)

(** The [result] dictionary and the [threading.Event] a callback closes
    over. *)
Record slot := Slot { result : record; event_set : bool }.

Definition empty_slot : slot := Slot ∅ false.

(** The closure [callback]: [result.update(response); event.set()]. *)
Definition run_callback (response : record) (s : slot) : slot :=
  Slot (response ∪ result s) true.

Abbreviation addr := nat.

Record client := Client {
  request_id : Z;
  callbacks : gmap Z addr;                  (* each callback, by the slot it fills *)
  message_handlers : gmap string (list handler);
  running : bool;
  stdin_closed : bool;
  heap : gmap addr slot
}.

Definition set_request_id (z : Z) (c : client) : client :=
  Client z (callbacks c) (message_handlers c) (running c) (stdin_closed c) (heap c).
Definition set_callbacks (m : gmap Z addr) (c : client) : client :=
  Client (request_id c) m (message_handlers c) (running c) (stdin_closed c) (heap c).
Definition set_message_handlers (m : gmap string (list handler)) (c : client) : client :=
  Client (request_id c) (callbacks c) m (running c) (stdin_closed c) (heap c).
Definition set_running (b : bool) (c : client) : client :=
  Client (request_id c) (callbacks c) (message_handlers c) b (stdin_closed c) (heap c).
Definition set_stdin_closed (b : bool) (c : client) : client :=
  Client (request_id c) (callbacks c) (message_handlers c) (running c) b (heap c).
Definition set_heap (h : gmap addr slot) (c : client) : client :=
  Client (request_id c) (callbacks c) (message_handlers c) (running c) (stdin_closed c) h.

(** ** Computations: state, exceptions and a trace *)

(** Every event is recorded with the state of the client at the moment it
    happens. *)
Definition trace := list (client * event).

Definition events_of (t : trace) : list event := map snd t.

Definition M (A : Type) := client -> outcome A * client * trace.

Definition ret {A} (a : A) : M A := fun c => (Ok a, c, []).

Definition raise {A} (e : exn) : M A := fun c => (Raise e, c, []).

Definition bind {A B} (m : M A) (f : A -> M B) : M B :=
  fun c =>
    match m c with
    | (Ok a, c1, t1) =>
        match f a c1 with
        | (o, c2, t2) => (o, c2, t1 ++ t2)
        end
    | (Raise e, c1, t1) => (Raise e, c1, t1)
    end.

Notation "'let!' x ':=' m 'in' k" := (bind m (fun x => k))
  (at level 10, x name, m at level 100, k at level 200, only parsing).
Notation "m '>>>' k" := (bind m (fun _ => k))
  (at level 100, k at level 200, only parsing, right associativity).

Definition emit (e : event) : M unit := fun c => (Ok tt, c, [(c, e)]).

Definition read {A} (f : client -> A) : M A := fun c => (Ok (f c), c, []).

Definition modify (f : client -> client) : M unit := fun c => (Ok tt, f c, []).

(** [try: body except Exception as e: handle(e)]. *)
Definition try_except {A} (body : M A) (handle : exn -> M A) : M A :=
  fun c =>
    match body c with
    | (Raise e, c1, t1) =>
        if is_Exception e then
          match handle e c1 with
          | (o, c2, t2) => (o, c2, t1 ++ t2)
          end
        else (Raise e, c1, t1)
    | r => r
    end.

(** [try: body finally: final]. *)
Definition try_finally {A} (body : M A) (final : M unit) : M A :=
  fun c =>
    match body c with
    | (o, c1, t1) =>
        match final c1 with
        | (Ok _, c2, t2) => (o, c2, t1 ++ t2)
        | (Raise e, c2, t2) => (Raise e, c2, t1 ++ t2)
        end
    end.

(** ** [_handle_response] *)

(** Lines 70-74: the loop over the handlers of a topic. *)
Fixpoint run_handlers (hs : list handler) (data : record) : M unit :=
  match hs with
  | [] => ret tt
  | h :: rest =>
      emit (EInvoke h data) >>>
      match h data with
      | HReturn => ret tt
      | HRaise e => emit (EPrint (HandlerErrorLine e))
      | HExit => raise BaseExit
      end >>>
      run_handlers rest data
  end.

(** Lines 67-75: the branch taken by a record of type [message]. *)
Definition handle_message (data : record) : M unit :=
  let topic := get "topic" data in
  if hashable topic then
    let! hs := read message_handlers in
    match str_key topic ≫= (hs !!.) with
    | Some l => run_handlers l data
    | None => ret tt
    end
  else raise TypeError.

(** Lines 78-81: the response branch. *)
Definition handle_request_id (data : record) : M unit :=
  let rid := get "request_id" data in
  match rid with
  | JNull => ret tt
  | _ =>
      if hashable rid then
        let! cbs := read callbacks in
        match int_key rid with
        | Some k =>
            match cbs !! k with
            | Some a =>
                modify (set_callbacks (delete k cbs)) >>>
                modify (fun c => set_heap (alter (run_callback data) a (heap c)) c)
            | None => ret tt
            end
        | None => ret tt
        end
      else raise TypeError
  end.

(** Lines 84-85. *)
Definition handle_error (data : record) : M unit :=
  if eq_str (get "type" data) "error"
  then emit (EPrint (ErrorLine (get "error" data)))
  else ret tt.

(** Lines 64-85: only the branch of a push message returns early. *)
Definition _handle_response (data : record) : M unit :=
  if eq_str (get "type" data) "message" then handle_message data
  else handle_request_id data >>> handle_error data.

(** ** [_read_responses] *)

(** [str.isspace] on one character.  Characters are the code points below
    256; the whitespace among them is 9-13, 28-32, 133 and 160. *)
Definition py_isspace (a : ascii) : bool :=
  let n := Z.of_nat (nat_of_ascii a) in
  ((9 <=? n) && (n <=? 13)) || ((28 <=? n) && (n <=? 32))
  || (n =? 133) || (n =? 160).

(** Leading whitespace removed. *)
Fixpoint lstrip (s : string) : string :=
  match s with
  | EmptyString => EmptyString
  | String a r => if py_isspace a then lstrip r else s
  end.

(** Trailing whitespace removed. *)
Fixpoint rstrip (s : string) : string :=
  match s with
  | EmptyString => EmptyString
  | String a r =>
      match rstrip r with
      | EmptyString => if py_isspace a then EmptyString else String a EmptyString
      | r' => String a r'
      end
  end.

(** [line.strip()]. *)
Definition strip (s : string) : string := rstrip (lstrip s).

(** How a call to [json.loads] ends. *)
Inductive load_result :=
  | Decoded (v : json)
  | JSONDecodeError (msg : string)
  | LoadRaise (e : exn).

(** How the iteration over [self.process.stdout] ends. *)
Inductive stream_end :=
  | EndOfInput
  | ReadFault (e : exn).

Section Reader.

(** The standard library's decoder. *)
Variable json_loads : string -> load_result.

(** Lines 42-50: the body of the read loop. *)
Definition read_line (line : string) : M unit :=
  let line := strip line in
  if bool_decide (line = "") then ret tt
  else
    match json_loads line with
    | Decoded (JDict data) => _handle_response data
    | Decoded _ => raise AttributeError
    | JSONDecodeError e => emit (EPrint (ParseErrorLine e))
    | LoadRaise e => raise e
    end.

(** Line 41: the loop over the lines of the stream. *)
Fixpoint read_lines (lines : list string) (fin : stream_end) : M unit :=
  match lines with
  | [] =>
      match fin with
      | EndOfInput => ret tt
      | ReadFault e => raise e
      end
  | l :: rest => read_line l >>> read_lines rest fin
  end.

(** Lines 40-54: the loop inside [try ... except Exception ... finally]. *)
Definition _read_responses (lines : list string) (fin : stream_end) : M unit :=
  try_finally
    (try_except (read_lines lines fin)
                (fun e => emit (EPrint (ReaderErrorLine e))))
    (modify (set_running false)).

End Reader.

(** ** [_send] *)

(** [stdin.write(line); stdin.flush()]: a closed file raises.  The other
    end of the pipe is taken to be there. *)
Definition stdin_write (command : record) : M unit :=
  let! closed := read stdin_closed in
  if closed then raise ValueError else emit (EWrite command).

(** Lines 89-99. *)
Definition _send (command : record) (callback : option addr) : M Z :=
  modify (fun c => set_request_id (request_id c + 1) c) >>>
  let! rid := read request_id in
  let command := <["request_id" := JInt rid]> command in
  match callback with
  | Some a => modify (fun c => set_callbacks (<[request_id c := a]> (callbacks c)) c)
  | None => ret tt
  end >>>
  stdin_write command >>>
  read request_id.

(** ** The facade *)

(** [result = {}; event = threading.Event()] and the closure over them. *)
Definition new_callback : M addr :=
  fun c =>
    let a := fresh (dom (heap c)) in
    (Ok a, set_heap (<[a := empty_slot]> (heap c)) c, []).

(** The [result] dictionary of a call, read after [event.wait] returned. *)
Definition result_of (a : addr) : M record :=
  let! h := read heap in ret (result (default empty_slot (h !! a))).

(** [not result]. *)
Definition is_empty (r : record) : bool := bool_decide (size r = 0%nat).

Definition publish_command (topic : string) (payload : json)
    (metadata : option record) : record :=
  {[ "op" := JStr "publish"; "topic" := JStr topic; "payload" := payload;
     "metadata" := JDict (default ∅ metadata) ]}.

(** Lines 103-115. *)
Definition publish_begin (topic : string) (payload : json)
    (metadata : option record) : M addr :=
  let! a := new_callback in
  _send (publish_command topic payload metadata) (Some a) >>>
  ret a.

(** Lines 119-125. *)
Definition publish_end (a : addr) : M record :=
  let! r := result_of a in
  if is_empty r then raise (TimeoutError "Publish timeout")
  else if negb (eq_str (get "status" r) "ok")
  then raise (PyException (get_or "error" (JStr "Publish failed") r))
  else ret r.

Definition subscribe_command (topic : string) : record :=
  {[ "op" := JStr "subscribe"; "topic" := JStr topic ]}.

(** Lines 130-132. *)
Definition store_handler (topic : string) (h : handler) : M unit :=
  modify (fun c =>
    match message_handlers c !! topic with
    | Some _ => c
    | None => set_message_handlers (<[topic := []]> (message_handlers c)) c
    end) >>>
  modify (fun c =>
    set_message_handlers (alter (fun l => l ++ [h]) topic (message_handlers c)) c).

(** Lines 130-144. *)
Definition subscribe_begin (topic : string) (h : handler) : M addr :=
  store_handler topic h >>>
  let! a := new_callback in
  _send (subscribe_command topic) (Some a) >>>
  ret a.

(** Lines 148-154. *)
Definition subscribe_end (a : addr) : M record :=
  let! r := result_of a in
  if is_empty r then raise (TimeoutError "Subscribe timeout")
  else if negb (eq_str (get "status" r) "ok")
  then raise (PyException (get_or "error" (JStr "Subscribe failed") r))
  else ret r.

Definition unsubscribe_command (topic : string) : record :=
  {[ "op" := JStr "unsubscribe"; "topic" := JStr topic ]}.

(** Lines 158-159. *)
Definition drop_handlers (topic : string) : M unit :=
  modify (fun c =>
    match message_handlers c !! topic with
    | Some _ => set_message_handlers (delete topic (message_handlers c)) c
    | None => c
    end).

(** Lines 158-171. *)
Definition unsubscribe_begin (topic : string) : M addr :=
  drop_handlers topic >>>
  let! a := new_callback in
  _send (unsubscribe_command topic) (Some a) >>>
  ret a.

(** Line 174. *)
Definition unsubscribe_end (a : addr) : M record := result_of a.

Definition ping_command : record := {[ "op" := JStr "ping" ]}.

(** Lines 178-185. *)
Definition ping_begin : M addr :=
  let! a := new_callback in
  _send ping_command (Some a) >>>
  ret a.

(** Lines 189-192. *)
Definition ping_end (a : addr) : M record :=
  let! r := result_of a in
  if is_empty r then raise (TimeoutError "Ping timeout") else ret r.

(** Lines 196-198. *)
Definition shutdown : M unit :=
  _send {[ "op" := JStr "shutdown" ]} None >>>
  (emit EClose >>> modify (set_stdin_closed true)) >>>
  modify (set_running false).

(** The state right after [__init__]. *)
Definition init : client := Client 0 ∅ ∅ true false ∅.

(** ** Vocabulary of the statements *)

Definition is_message (data : record) : bool := eq_str (get "type" data) "message".

Definition is_error (data : record) : bool := eq_str (get "type" data) "error".

(** What one handler contributes to the trace of a dispatch. *)
Definition handler_events (data : record) (h : handler) : list event :=
  EInvoke h data ::
  match h data with
  | HRaise e => [EPrint (HandlerErrorLine e)]
  | _ => []
  end.

(** The handler ends by returning or by raising an [Exception]. *)
Definition contained (data : record) (h : handler) : Prop := h data <> HExit.

(** The handlers registered for the topic of a push message. *)
Definition subscribers (c : client) (data : record) : list handler :=
  default [] (str_key (get "topic" data) ≫= (message_handlers c !!.)).

(** The waiter registered under the [request_id] of a record. *)
Definition known_waiter (c : client) (data : record) : option (Z * addr) :=
  match get "request_id" data with
  | JNull => None
  | v => k ← int_key v; a ← callbacks c !! k; Some (k, a)
  end.

(** The record carries the identifier [k] and is not a push message. *)
Definition answers (data : record) (k : Z) : Prop :=
  is_message data = false /\ get "request_id" data <> JNull
  /\ int_key (get "request_id" data) = Some k.

(** The state after the waiter [a], registered under [k], was completed
    with [data]. *)
Definition resolve (k : Z) (a : addr) (data : record) (c : client) : client :=
  set_heap (alter (run_callback data) a (heap c))
           (set_callbacks (delete k (callbacks c)) c).

Definition error_log (data : record) : list event :=
  if is_error data then [EPrint (ErrorLine (get "error" data))] else [].

(** A waiter that is registered under [k] only and has not been completed. *)
Definition pending (c : client) (k : Z) (a : addr) : Prop :=
  callbacks c !! k = Some a /\ heap c !! a = Some empty_slot
  /\ map_Forall (fun k' a' => a' = a -> k' = k) (callbacks c).

(** Every line of [lines] that decodes to a record satisfies [P]. *)
Definition decoded_records (json_loads : string -> load_result)
    (lines : list string) (P : record -> Prop) : Prop :=
  forall l data, l ∈ lines -> json_loads (strip l) = Decoded (JDict data) -> P data.

(** The classification in the words of the specification (4.4, step 2):
    a push message, else a response to a known request, else an error that
    is only logged; the three branches exclude each other. *)
Definition dispatch_by_precedence (data : record) : M unit :=
  if is_message data then handle_message data
  else
    let! c := read (fun c => c) in
    match known_waiter c data with
    | Some _ => handle_request_id data
    | None => handle_error data
    end.

(** The state [_send] leaves behind: the next identifier is taken and the
    callback, if any, is registered under it. *)
Definition sent (callback : option addr) (c : client) : client :=
  let c1 := set_request_id (request_id c + 1) c in
  match callback with
  | Some a => set_callbacks (<[request_id c1 := a]> (callbacks c1)) c1
  | None => c1
  end.

(** The state [new_callback] leaves behind, and the slot it allocates. *)
Definition new_addr (c : client) : addr := fresh (dom (heap c)).

Definition allocated (c : client) : client :=
  set_heap (<[new_addr c := empty_slot]> (heap c)) c.

(** The command as written: [command['request_id'] = self.request_id]. *)
Definition numbered (command : record) (c : client) : record :=
  <["request_id" := JInt (request_id c + 1)]> command.

(** Every address the registry refers to is allocated. *)
Definition closed_registry (c : client) : Prop :=
  map_Forall (fun _ a => is_Some (heap c !! a)) (callbacks c).

(** ** Sample data *)

Definition h_print : handler := fun _ => HReturn.

Definition h_broken : handler := fun _ => HRaise "boom".

(** Two calls are waiting, and [events] has two subscribers. *)
Definition two_waiting : client :=
  Client 2 {[ 1 := 0%nat; 2 := 1%nat ]} {[ "events" := [h_broken; h_print] ]}
         true false {[ 0%nat := empty_slot; 1%nat := empty_slot ]}.

Definition reply_ok (k : Z) : record :=
  {[ "request_id" := JInt k; "status" := JStr "ok" ]}.

Definition reply_failed (k : Z) : record :=
  {[ "type" := JStr "error"; "request_id" := JInt k; "status" := JStr "error";
     "error" := JStr "no such topic" ]}.

Definition push_events (payload : string) : record :=
  {[ "type" := JStr "message"; "topic" := JStr "events";
     "payload" := JStr payload ]}.

(** The text of three lines of the stream, as the broker writes them. *)
Definition quoted (s : string) : string :=
  String "034"%char (s +:+ String "034"%char "").

Definition newline : string := String "010"%char "".

Definition line_reply (k : string) : string :=
  "{" +:+ quoted "request_id" +:+ ": " +:+ k +:+ ", "
      +:+ quoted "status" +:+ ": " +:+ quoted "ok" +:+ "}" +:+ newline.

Definition line_push : string :=
  "{" +:+ quoted "type" +:+ ": " +:+ quoted "message" +:+ ", "
      +:+ quoted "topic" +:+ ": " +:+ quoted "events" +:+ ", "
      +:+ quoted "payload" +:+ ": " +:+ quoted "x" +:+ "}" +:+ newline.

(** The decoder on these three texts; on any other text it reports a
    syntax error. *)
Definition sample_loads (text : string) : load_result :=
  if bool_decide (text = strip (line_reply "1")) then Decoded (JDict (reply_ok 1))
  else if bool_decide (text = strip (line_reply "2")) then Decoded (JDict (reply_ok 2))
  else if bool_decide (text = strip line_push) then Decoded (JDict (push_events "x"))
  else JSONDecodeError "Expecting value".

(** What the reader has seen before the reply to request 1 arrives: the
    reply to request 2, a blank line and a line that is no JSON. *)
Definition earlier_lines : list string :=
  [line_reply "2"; "  " +:+ newline; "{not json" +:+ newline].

Definition after_earlier_lines : client :=
  resolve 2 1%nat (reply_ok 2) two_waiting.

(** ** The diagnostic stream and the life of a client *)

(** Lines 58-60 of [_read_stderr]: every line is echoed, stripped and
    prefixed, on the error stream. *)
Fixpoint echo_lines (lines : list string) (fin : stream_end)
    : outcome unit * list string :=
  match lines with
  | [] =>
      (match fin with
       | EndOfInput => Ok tt
       | ReadFault e => Raise e
       end, [])
  | l :: rest =>
      match echo_lines rest fin with
      | (o, out) => (o, ("shortbus: " +:+ strip l) :: out)
      end
  end.

(** Lines 56-62: [except Exception: pass] around the loop. *)
Definition _read_stderr (lines : list string) (fin : stream_end)
    : outcome unit * list string :=
  match echo_lines lines fin with
  | (Raise e, out) => if is_Exception e then (Ok tt, out) else (Raise e, out)
  | r => r
  end.


(** The identifiers in use lie between 1 and the counter, and every
    registered callback is a pending waiter. *)
Definition well_formed (c : client) : Prop :=
  0 <= request_id c
  /\ map_Forall (fun k a => 0 < k <= request_id c /\ pending c k a) (callbacks c).

(** One atomic piece of what the threads of a client execute.  The part of
    a call after the wait only reads the state and is no step. *)
Inductive step (json_loads : string -> load_result) : client -> client -> Prop :=
  | step_read_line line c o c1 t :
      read_line json_loads line c = (o, c1, t) -> step json_loads c c1
  | step_reader_exit c :
      step json_loads c (set_running false c)
  | step_publish topic payload metadata c o c1 t :
      publish_begin topic payload metadata c = (o, c1, t) -> step json_loads c c1
  | step_subscribe topic h c o c1 t :
      subscribe_begin topic h c = (o, c1, t) -> step json_loads c c1
  | step_unsubscribe topic c o c1 t :
      unsubscribe_begin topic c = (o, c1, t) -> step json_loads c c1
  | step_ping c o c1 t :
      ping_begin c = (o, c1, t) -> step json_loads c c1
  | step_shutdown c o c1 t :
      shutdown c = (o, c1, t) -> step json_loads c c1.

(** The states a client goes through, from the one [__init__] builds. *)
Definition reachable (json_loads : string -> load_result) (c : client) : Prop :=
  rtc (step json_loads) init c.

(** A line that decodes to a number, and the decoder that knows it. *)
Definition line_number : string := "5" +:+ newline.

Definition number_loads (text : string) : load_result :=
  if bool_decide (text = "5") then Decoded (JInt 5) else sample_loads text.

(** A handler that leaves through [sys.exit()]. *)
Definition h_exit : handler := fun _ => HExit.

(** A reply whose [request_id] is a list, its text and a decoder that
    knows it. *)
Definition reply_list_id : record :=
  {[ "request_id" := JList [JInt 1]; "status" := JStr "ok" ]}.

Definition line_list_id : string :=
  "{" +:+ quoted "request_id" +:+ ": [1], "
      +:+ quoted "status" +:+ ": " +:+ quoted "ok" +:+ "}" +:+ newline.

Definition list_id_loads (text : string) : load_result :=
  if bool_decide (text = strip line_list_id) then Decoded (JDict reply_list_id)
  else sample_loads text.

(** [events] has three subscribers, the second of which exits. *)
Definition with_exit : client :=
  set_message_handlers {[ "events" := [h_broken; h_exit; h_print] ]} two_waiting.

(** ** The trace monad *)

Lemma bind_ok {A B} (m : M A) (f : A -> M B) c a c1 t1 :
  m c = (Ok a, c1, t1) ->
  bind m f c = (let '(o, c2, t2) := f a c1 in (o, c2, t1 ++ t2)).
Proof. intros H. unfold bind. rewrite H. by destruct (f a c1) as [[??]?]. Qed.

Lemma bind_raise {A B} (m : M A) (f : A -> M B) c e c1 t1 :
  m c = (Raise e, c1, t1) -> bind m f c = (Raise e, c1, t1).
Proof. intros H. unfold bind. by rewrite H. Qed.

Lemma events_of_app t1 t2 : events_of (t1 ++ t2) = events_of t1 ++ events_of t2.
Proof. apply map_app. Qed.

Lemma events_of_at c (es : list event) : events_of (map (fun e => (c, e)) es) = es.
Proof. unfold events_of. rewrite map_map. simpl. apply map_id. Qed.

(** ** Dispatch of push messages *)

Lemma run_handlers_contained hs data c :
  Forall (contained data) hs ->
  run_handlers hs data c
  = (Ok tt, c, map (fun e => (c, e)) (flat_map (handler_events data) hs)).
Proof.
  induction 1 as [|h hs Hh _ IH]; [done|].
  cbn [run_handlers flat_map]. unfold bind at 1 2, emit at 1.
  unfold handler_events at 1. unfold contained in Hh.
  destruct (h data) eqn:E; [| |done]; cbn; rewrite IH; cbn; done.
Qed.

Lemma run_handlers_state hs data c o c1 t :
  run_handlers hs data c = (o, c1, t) -> c1 = c.
Proof.
  revert o c1 t. induction hs as [|h hs IH]; intros o c1 t.
  - cbn. by intros [= _ <- _].
  - cbn [run_handlers]. unfold bind at 1 2, emit at 1.
    destruct (h data); cbn.
    + destruct (run_handlers hs data c) as [[o' c'] t'] eqn:E.
      intros [= _ <- _]. by eapply IH.
    + destruct (run_handlers hs data c) as [[o' c'] t'] eqn:E.
      intros [= _ <- _]. by eapply IH.
    + by intros [= _ <- _].
Qed.

Lemma handle_message_state data c o c1 t :
  handle_message data c = (o, c1, t) -> c1 = c.
Proof.
  unfold handle_message. destruct (hashable _).
  - unfold bind, read.
    destruct (str_key _ ≫= _) as [l|].
    + destruct (run_handlers l data c) as [[o' c'] t'] eqn:E.
      cbn. intros [= _ <- _]. by eapply run_handlers_state.
    + cbn. by intros [= _ <- _].
  - by intros [= _ <- _].
Qed.

Lemma handle_message_contained data c :
  hashable (get "topic" data) = true ->
  Forall (contained data) (subscribers c data) ->
  handle_message data c
  = (Ok tt, c, map (fun e => (c, e))
                   (flat_map (handler_events data) (subscribers c data))).
Proof.
  intros Hh Hc. unfold handle_message, subscribers in *. rewrite Hh.
  unfold bind, read.
  destruct (str_key _ ≫= _) as [l|]; cbn in *.
  - by rewrite run_handlers_contained.
  - done.
Qed.

(** ** Responses *)

Lemma known_waiter_Some c data k a :
  known_waiter c data = Some (k, a) <->
  get "request_id" data <> JNull /\ int_key (get "request_id" data) = Some k
  /\ callbacks c !! k = Some a.
Proof.
  unfold known_waiter.
  destruct (get "request_id" data) as [| b | z | f | s | l | d]; cbn;
    try (split; [done | by intros (? & ? & ?)]).
  - destruct (callbacks c !! _) eqn:E; cbn; split.
    + intros [= <- <-]. done.
    + intros (_ & [= <-] & ?). rewrite E in *. by simplify_eq.
    + done.
    + intros (_ & [= <-] & ?). rewrite E in *. done.
  - destruct (callbacks c !! z) eqn:E; cbn; split.
    + intros [= <- <-]. done.
    + intros (_ & [= <-] & ?). by simplify_eq.
    + done.
    + intros (_ & [= <-] & ?). by simplify_eq.
  - destruct (float_as_int f) as [k'|]; cbn.
    + destruct (callbacks c !! k') eqn:E; cbn; split.
      * intros [= <- <-]. done.
      * intros (_ & [= <-] & ?). by simplify_eq.
      * done.
      * intros (_ & [= <-] & ?). by simplify_eq.
    + split; [done | by intros (_ & ? & _)].
Qed.

Lemma handle_request_id_hashable data c :
  hashable (get "request_id" data) = true ->
  handle_request_id data c
  = (Ok tt,
     match known_waiter c data with
     | Some (k, a) => resolve k a data c
     | None => c
     end, []).
Proof.
  unfold handle_request_id, known_waiter.
  destruct (get "request_id" data) as [| b | z | f | s | l | d]; cbn;
    try done; intros _; unfold bind, read, modify; cbn.
  - by destruct (callbacks c !! _).
  - by destruct (callbacks c !! z).
  - destruct (float_as_int f) as [k|]; cbn; [|done].
    by destruct (callbacks c !! k).
Qed.

Lemma handle_request_id_unhashable data c :
  hashable (get "request_id" data) = false ->
  handle_request_id data c = (Raise TypeError, c, []).
Proof.
  unfold handle_request_id.
  by destruct (get "request_id" data).
Qed.

Lemma handle_error_log data c :
  handle_error data c = (Ok tt, c, map (fun e => (c, e)) (error_log data)).
Proof.
  unfold handle_error, error_log, is_error. by destruct (eq_str _ _).
Qed.

Lemma handle_response_message data c :
  is_message data = true -> _handle_response data c = handle_message data c.
Proof. unfold _handle_response, is_message. by intros ->. Qed.

Lemma handle_response_hashable data c :
  is_message data = false ->
  hashable (get "request_id" data) = true ->
  let c1 := match known_waiter c data with
            | Some (k, a) => resolve k a data c
            | None => c
            end in
  _handle_response data c = (Ok tt, c1, map (fun e => (c1, e)) (error_log data)).
Proof.
  unfold _handle_response, is_message. intros -> Hh. cbn zeta.
  erewrite bind_ok by by apply handle_request_id_hashable.
  by rewrite handle_error_log.
Qed.

Lemma handle_response_unhashable data c :
  is_message data = false ->
  hashable (get "request_id" data) = false ->
  _handle_response data c = (Raise TypeError, c, []).
Proof.
  unfold _handle_response, is_message. intros -> Hh.
  by erewrite bind_raise by by apply handle_request_id_unhashable.
Qed.

(** Whatever the record and however the call ends, the state is either
    untouched or one waiter was completed with the record. *)
Lemma handle_response_state data c o c1 t :
  _handle_response data c = (o, c1, t) ->
  c1 = c \/ exists k a, answers data k /\ callbacks c !! k = Some a
                        /\ c1 = resolve k a data c.
Proof.
  destruct (is_message data) eqn:Em.
  - rewrite handle_response_message by done.
    intros H. left. by eapply handle_message_state.
  - destruct (hashable (get "request_id" data)) eqn:Eh.
    + rewrite handle_response_hashable by done. cbn zeta.
      destruct (known_waiter c data) as [[k a]|] eqn:Ek.
      * intros [= _ <- _]. right. exists k, a.
        apply known_waiter_Some in Ek as (? & ? & ?). by repeat split.
      * intros [= _ <- _]. by left.
    + rewrite handle_response_unhashable by done.
      intros [= _ <- _]. by left.
Qed.

Lemma answers_hashable data k : answers data k -> hashable (get "request_id" data) = true.
Proof. intros (_ & _ & H). by destruct (get "request_id" data). Qed.

Lemma answers_known c data k a :
  answers data k -> callbacks c !! k = Some a -> known_waiter c data = Some (k, a).
Proof. intros (_ & ? & ?) ?. by apply known_waiter_Some. Qed.

Lemma pending_resolve_other c k a k' a' data :
  pending c k a -> k' <> k -> callbacks c !! k' = Some a' ->
  pending (resolve k' a' data c) k a.
Proof.
  intros (Hk & Ha & Hu) Hne Hk'.
  assert (a' <> a) as Hna.
  { intros ->. apply Hne. by eapply (Hu k'). }
  repeat split; cbn.
  - by rewrite lookup_delete_ne.
  - by rewrite lookup_alter_ne.
  - intros k'' a'' Hl. apply lookup_delete_Some in Hl as [_ Hl].
    by apply (Hu k'').
Qed.

(** ** The read loop *)

Lemma rstrip_blank s :
  Forall (fun a => py_isspace a = true) (list_ascii_of_string s) -> rstrip s = "".
Proof.
  induction s as [|a s IH]; [done|]. cbn.
  intros H. apply Forall_cons in H as [Ha Hs]. by rewrite IH, Ha.
Qed.

Lemma lstrip_blank s :
  Forall (fun a => py_isspace a = true) (list_ascii_of_string s) -> lstrip s = "".
Proof.
  induction s as [|a s IH]; [done|]. cbn.
  intros H. apply Forall_cons in H as [Ha Hs]. rewrite Ha. by apply IH.
Qed.

Lemma strip_blank s :
  Forall (fun a => py_isspace a = true) (list_ascii_of_string s) -> strip s = "".
Proof. intros H. unfold strip. by rewrite lstrip_blank. Qed.

Lemma rstrip_empty_inv s :
  rstrip s = "" -> Forall (fun a => py_isspace a = true) (list_ascii_of_string s).
Proof.
  induction s as [|a s IH]; [by constructor|]. cbn.
  destruct (rstrip s) eqn:E; [|done].
  destruct (py_isspace a) eqn:Ea; [|done].
  intros _. constructor; [done | by apply IH].
Qed.

Lemma lstrip_spec s :
  exists pre, Forall (fun a => py_isspace a = true) pre
              /\ list_ascii_of_string s = pre ++ list_ascii_of_string (lstrip s).
Proof.
  induction s as [|a s (pre & Hpre & IH)]; [by exists []|]. cbn.
  destruct (py_isspace a) eqn:Ea.
  - exists (a :: pre). split; [by constructor|]. cbn. by rewrite IH.
  - by exists [].
Qed.

(** The lines the loop skips are exactly the whitespace-only ones. *)
Lemma strip_empty_iff s :
  strip s = "" <-> Forall (fun a => py_isspace a = true) (list_ascii_of_string s).
Proof.
  split; [|apply strip_blank].
  unfold strip. intros H%rstrip_empty_inv.
  destruct (lstrip_spec s) as (pre & Hpre & ->). by apply Forall_app.
Qed.

Section ReaderFacts.

Variable json_loads : string -> load_result.

Lemma read_line_blank line c :
  strip line = "" -> read_line json_loads line c = (Ok tt, c, []).
Proof. unfold read_line. by intros ->. Qed.

Lemma read_line_decoded line data c :
  strip line <> "" -> json_loads (strip line) = Decoded (JDict data) ->
  read_line json_loads line c = _handle_response data c.
Proof.
  intros Hne Hd. unfold read_line. rewrite bool_decide_eq_false_2 by done.
  by rewrite Hd.
Qed.

Lemma read_line_state line c o c1 t :
  read_line json_loads line c = (o, c1, t) ->
  c1 = c \/ exists data k a,
              json_loads (strip line) = Decoded (JDict data) /\ answers data k
              /\ callbacks c !! k = Some a /\ c1 = resolve k a data c.
Proof.
  unfold read_line. case_bool_decide as Hs.
  { intros [= _ <- _]. by left. }
  destruct (json_loads (strip line)) as [v | msg | e] eqn:Ed.
  - destruct v; try (intros [= _ <- _]; by left).
    intros H%handle_response_state. destruct H as [-> | (k & a & ? & ? & ->)].
    + by left.
    + right. by exists d, k, a.
  - intros [= _ <- _]. by left.
  - intros [= _ <- _]. by left.
Qed.

Lemma read_line_pending line c o c1 t k a :
  pending c k a ->
  (forall data, json_loads (strip line) = Decoded (JDict data) -> ~ answers data k) ->
  read_line json_loads line c = (o, c1, t) -> pending c1 k a.
Proof.
  intros Hp Hn H.
  apply read_line_state in H as [-> | (data & k' & a' & Hd & Hk' & Hl & ->)].
  - done.
  - apply pending_resolve_other; [done | | done].
    intros ->. by eapply Hn.
Qed.

Lemma read_lines_cons l rest fin c :
  read_lines json_loads (l :: rest) fin c
  = bind (read_line json_loads l) (fun _ => read_lines json_loads rest fin) c.
Proof. done. Qed.

Lemma read_lines_pending lines fin c o c1 t k a :
  pending c k a ->
  decoded_records json_loads lines (fun d => ~ answers d k) ->
  read_lines json_loads lines fin c = (o, c1, t) -> pending c1 k a.
Proof.
  revert c o c1 t. induction lines as [|l rest IH]; intros c o c1 t Hp Hn.
  - cbn. destruct fin; by intros [= _ <- _].
  - rewrite read_lines_cons. unfold bind.
    destruct (read_line json_loads l c) as [[[[]|e] c'] t'] eqn:El.
    + destruct (read_lines json_loads rest fin c') as [[o'' c''] t''] eqn:Er.
      intros [= _ <- _]. eapply IH; [| |exact Er].
      * eapply read_line_pending; [done| |exact El].
        intros data Hd. eapply Hn; [|done]. by left.
      * intros l' data Hin. apply Hn. by right.
    + intros [= _ <- _]. eapply read_line_pending; [done| |exact El].
      intros data Hd. eapply Hn; [|done]. by left.
Qed.

(** A property of the state that completing a waiter preserves is
    preserved by the read loop. *)
Lemma read_lines_invariant (P : client -> Prop) lines fin c o c1 t :
  (forall k a data c, P c -> P (resolve k a data c)) ->
  P c -> read_lines json_loads lines fin c = (o, c1, t) -> P c1.
Proof.
  intros HP. revert c o c1 t. induction lines as [|l rest IH]; intros c o c1 t Hc.
  - cbn. destruct fin; by intros [= _ <- _].
  - rewrite read_lines_cons. unfold bind.
    destruct (read_line json_loads l c) as [[[[]|e] c'] t'] eqn:El.
    + destruct (read_lines json_loads rest fin c') as [[o'' c''] t''] eqn:Er.
      intros [= _ <- _]. eapply IH; [|exact Er].
      apply read_line_state in El as [-> | (? & ? & ? & _ & _ & _ & ->)]; auto.
    + intros [= _ <- _].
      apply read_line_state in El as [-> | (? & ? & ? & _ & _ & _ & ->)]; auto.
Qed.

Lemma read_lines_handlers lines fin c o c1 t :
  read_lines json_loads lines fin c = (o, c1, t) ->
  message_handlers c1 = message_handlers c.
Proof.
  intros H.
  by eapply (read_lines_invariant (fun x => message_handlers x = message_handlers c)).
Qed.


End ReaderFacts.

(** ** Sending *)

Lemma send_run command callback c :
  _send command callback c
  = (if stdin_closed c then Raise ValueError else Ok (request_id c + 1),
     sent callback c,
     if stdin_closed c then []
     else [(sent callback c, EWrite (numbered command c))]).
Proof.
  destruct c as [rid cbs hs run closed hp].
  unfold _send, sent, numbered, bind, modify, read, stdin_write.
  destruct callback as [a|], closed; reflexivity.
Qed.

Lemma new_callback_run c : new_callback c = (Ok (new_addr c), allocated c, []).
Proof. done. Qed.

Lemma new_addr_fresh c : heap c !! new_addr c = None.
Proof. apply not_elem_of_dom. unfold new_addr. apply is_fresh. Qed.

(** The part of a call before the wait, for a command without side effect
    on the subscriptions. *)
Lemma call_begin_run command c :
  (let! a := new_callback in _send command (Some a) >>> ret a) c
  = (if stdin_closed c then Raise ValueError else Ok (new_addr c),
     sent (Some (new_addr c)) (allocated c),
     if stdin_closed c then []
     else [(sent (Some (new_addr c)) (allocated c), EWrite (numbered command c))]).
Proof.
  erewrite bind_ok by apply new_callback_run. cbn [app].
  unfold bind at 1. rewrite send_run.
  change (stdin_closed (allocated c)) with (stdin_closed c).
  change (numbered command (allocated c)) with (numbered command c).
  by destruct (stdin_closed c).
Qed.

(** A call issued on an open pipe leaves a pending waiter behind. *)
Lemma call_begin_pending c :
  closed_registry c ->
  pending (sent (Some (new_addr c)) (allocated c)) (request_id c + 1) (new_addr c).
Proof.
  intros Hc. repeat split.
  - cbn. apply lookup_insert_eq.
  - cbn. apply lookup_insert_eq.
  - cbn. intros k a Hl ->.
    destruct (decide (k = request_id c + 1)) as [|Hne]; [done|].
    rewrite lookup_insert_ne in Hl by done.
    apply Hc in Hl as [s Hs]. cbn in Hs. by rewrite new_addr_fresh in Hs.
Qed.

(** ** The registry stays closed *)

Lemma resolve_closed_registry k a data c :
  closed_registry c -> closed_registry (resolve k a data c).
Proof.
  intros Hc k' a' Hl. cbn in *.
  apply lookup_delete_Some in Hl as [_ Hl]. apply Hc in Hl as [s Hs].
  cbn in Hs. destruct (decide (a' = a)) as [->|Hne].
  - rewrite lookup_alter_eq, Hs. by eexists.
  - rewrite lookup_alter_ne by done. by eexists.
Qed.

Lemma call_begin_closed_registry c :
  closed_registry c -> closed_registry (sent (Some (new_addr c)) (allocated c)).
Proof.
  intros Hc k a Hl. cbn in *.
  destruct (decide (k = request_id c + 1)) as [->|Hne].
  - rewrite lookup_insert_eq in Hl. injection Hl as <-.
    rewrite lookup_insert_eq. by eexists.
  - rewrite lookup_insert_ne in Hl by done. apply Hc in Hl as [s Hs]. cbn in Hs.
    destruct (decide (a = new_addr c)) as [->|Hna].
    + by rewrite new_addr_fresh in Hs.
    + rewrite lookup_insert_ne by done. by eexists.
Qed.

Lemma read_lines_closed_registry json_loads lines fin c o c1 t :
  closed_registry c -> read_lines json_loads lines fin c = (o, c1, t) ->
  closed_registry c1.
Proof.
  intros Hc H. eapply (read_lines_invariant json_loads closed_registry); [|done..].
  intros. by apply resolve_closed_registry.
Qed.

(** The replies to two waiting calls complete the same waiters in either
    order of arrival. *)
Example arrival_order_is_irrelevant :
  snd (fst (read_lines sample_loads [line_reply "1"; line_reply "2"]
                       EndOfInput two_waiting))
  = snd (fst (read_lines sample_loads [line_reply "2"; line_reply "1"]
                         EndOfInput two_waiting)).
Proof. vm_compute. reflexivity. Qed.

(** A line that is no JSON is reported and the reply after it still
    reaches its waiter. *)
Example malformed_line_is_survived :
  let r := read_lines sample_loads ["{not json" +:+ newline; line_reply "1"]
                      EndOfInput two_waiting in
  fst (fst r) = Ok tt
  /\ events_of (snd r) = [EPrint (ParseErrorLine "Expecting value")]
  /\ heap (snd (fst r)) !! 0%nat = Some (Slot (reply_ok 1) true).
Proof. repeat split; vm_compute; reflexivity. Qed.

(** ** Properties of the dispatcher *)

(** C7. A push message of a topic reaches every handler registered for
    the topic, in registration order.  A handler that raises is reported on
    the error stream and the next handlers are still called, for this
    message and for a later one.  (A handler counts as raising when it
    raises an [Exception], which is what lines 71-74 catch.) *)
Theorem handlers_run_in_registration_order c topic hs m m2 :
  message_handlers c !! topic = Some hs ->
  is_message m = true -> get "topic" m = JStr topic -> Forall (contained m) hs ->
  is_message m2 = true -> get "topic" m2 = JStr topic -> Forall (contained m2) hs ->
  (exists t, _handle_response m c = (Ok tt, c, t)
             /\ events_of t = flat_map (handler_events m) hs)
  /\ (exists t, (_handle_response m >>> _handle_response m2) c = (Ok tt, c, t)
                /\ events_of t = flat_map (handler_events m) hs
                                 ++ flat_map (handler_events m2) hs).
Proof.
  intros Hhs Hm Ht Hc Hm2 Ht2 Hc2.
  assert (forall d, is_message d = true -> get "topic" d = JStr topic ->
                    Forall (contained d) hs ->
                    _handle_response d c
                    = (Ok tt, c, map (fun e => (c, e)) (flat_map (handler_events d) hs)))
    as Hone.
  { intros d Hd Htd Hcd. rewrite handle_response_message by done.
    assert (subscribers c d = hs) as Hs.
    { unfold subscribers. rewrite Htd. cbn. by rewrite Hhs. }
    rewrite handle_message_contained; rewrite ?Hs, ?Htd; done. }
  split.
  - eexists. split; [by apply Hone|]. apply events_of_at.
  - eexists. split.
    + erewrite bind_ok by by apply Hone. by rewrite Hone.
    + by rewrite events_of_app, !events_of_at.
Qed.

Lemma handlers_run_in_registration_order_witness :
  exists t, (_handle_response (push_events "x") >>> _handle_response (push_events "y"))
              two_waiting = (Ok tt, two_waiting, t)
            /\ events_of t
               = [EInvoke h_broken (push_events "x");
                  EPrint (HandlerErrorLine "boom");
                  EInvoke h_print (push_events "x");
                  EInvoke h_broken (push_events "y");
                  EPrint (HandlerErrorLine "boom");
                  EInvoke h_print (push_events "y")].
Proof.
  apply (handlers_run_in_registration_order two_waiting "events"
           [h_broken; h_print] (push_events "x") (push_events "y"));
    try reflexivity; repeat constructor; discriminate.
Defined.

(** C10. A line made of whitespace only (the empty line included) is
    skipped: nothing is decoded, nothing is printed, and the state of the
    client, with its registries and waiters, is the same afterwards. *)
Theorem blank_line_is_skipped json_loads line c :
  Forall (fun a => py_isspace a = true) (list_ascii_of_string line) ->
  read_line json_loads line c = (Ok tt, c, [])
  /\ forall rest fin,
       read_lines json_loads (line :: rest) fin c = read_lines json_loads rest fin c.
Proof.
  intros Hb. apply strip_blank in Hb.
  split; [by apply read_line_blank|].
  intros rest fin. rewrite read_lines_cons.
  erewrite bind_ok by by apply read_line_blank.
  by destruct (read_lines json_loads rest fin c) as [[??]?].
Qed.

Lemma blank_line_is_skipped_witness :
  read_line sample_loads ("  " +:+ newline) two_waiting = (Ok tt, two_waiting, [])
  /\ forall rest fin,
       read_lines sample_loads (("  " +:+ newline) :: rest) fin two_waiting
       = read_lines sample_loads rest fin two_waiting.
Proof.
  apply (blank_line_is_skipped sample_loads ("  " +:+ newline) two_waiting).
  repeat constructor.
Defined.

(** C6, as the code has it, for a record whose key (the [topic] of a
    push, the [request_id] of any other record) is hashable, and for
    handlers that return or raise an [Exception].  A record of type
    [message] is dispatched to the subscribers of its topic (none: nothing
    happens) and is neither treated as a response nor logged.  Any other
    record resolves the waiter registered under its [request_id], if there
    is one, and, whether or not it resolved a waiter, is logged when its
    type is [error]. *)
Theorem classification_of_records c data :
  (is_message data = true ->
   hashable (get "topic" data) = true /\ Forall (contained data) (subscribers c data)) ->
  (is_message data = false -> hashable (get "request_id" data) = true) ->
  exists c1 t,
    _handle_response data c = (Ok tt, c1, t)
    /\ if is_message data
       then c1 = c
            /\ events_of t = flat_map (handler_events data) (subscribers c data)
       else c1 = match known_waiter c data with
                 | Some (k, a) => resolve k a data c
                 | None => c
                 end
            /\ events_of t = error_log data.
Proof.
  intros Hm Hr. destruct (is_message data) eqn:E.
  - destruct Hm as [Hh Hc]; [done|].
    eexists _, _. split.
    + rewrite handle_response_message by done. by apply handle_message_contained.
    + split; [done | apply events_of_at].
  - eexists _, _. split.
    + by apply handle_response_hashable; [|apply Hr].
    + split; [done | apply events_of_at].
Qed.

Lemma classification_of_records_witness :
  exists c1 t,
    _handle_response (reply_failed 1) two_waiting = (Ok tt, c1, t)
    /\ c1 = resolve 1 0%nat (reply_failed 1) two_waiting
    /\ events_of t = [EPrint (ErrorLine (JStr "no such topic"))].
Proof.
  apply (classification_of_records two_waiting (reply_failed 1)).
  - discriminate.
  - reflexivity.
Defined.

(** C6 as claimed does not hold: a record of type [error] that carries the
    identifier of a waiting call resolves the waiter and is logged as
    well, where the claimed precedence would only resolve. *)
Lemma precedence_counterexample :
  known_waiter two_waiting (reply_failed 1) = Some (1, 0%nat)
  /\ is_error (reply_failed 1) = true
  /\ events_of (snd (_handle_response (reply_failed 1) two_waiting))
     = [EPrint (ErrorLine (JStr "no such topic"))]
  /\ events_of (snd (dispatch_by_precedence (reply_failed 1) two_waiting)) = []
  /\ _handle_response (reply_failed 1) two_waiting
     <> dispatch_by_precedence (reply_failed 1) two_waiting.
Proof.
  assert (events_of (snd (_handle_response (reply_failed 1) two_waiting))
          = [EPrint (ErrorLine (JStr "no such topic"))]) as H1 by reflexivity.
  assert (events_of (snd (dispatch_by_precedence (reply_failed 1) two_waiting)) = [])
    as H2 by reflexivity.
  repeat split; try reflexivity.
  intros Heq. rewrite Heq, H2 in H1. discriminate.
Qed.

(** C3, as the code has it.  A response whose [request_id] is missing,
    null or a hashable value (a number, a boolean, a string) under which
    no waiter is registered is dropped: the call returns normally and
    leaves the whole state, every waiter included, as it was.  Once a
    response was handled, no waiter is left under its identifier, so a
    second response with that identifier is dropped in the same way: a
    waiter is completed at most once. *)
Theorem unmatched_response_is_dropped c data :
  is_message data = false ->
  hashable (get "request_id" data) = true ->
  (known_waiter c data = None ->
   exists t, _handle_response data c = (Ok tt, c, t)
             /\ events_of t = error_log data)
  /\ (forall k o c1 t data',
        answers data k -> answers data' k ->
        _handle_response data c = (o, c1, t) ->
        exists t', _handle_response data' c1 = (Ok tt, c1, t')
                   /\ events_of t' = error_log data').
Proof.
  intros Hm Hh. split.
  - intros Hk. eexists. split.
    + rewrite handle_response_hashable by done. cbn zeta. by rewrite Hk.
    + apply events_of_at.
  - intros k o c1 t data' Ha Ha' H.
    assert (callbacks c1 !! k = None) as Hgone.
    { rewrite handle_response_hashable in H by done. cbn zeta in H.
      destruct (callbacks c !! k) as [a|] eqn:El.
      - rewrite (answers_known c data k a) in H by done.
        injection H as _ <- _. cbn. apply lookup_delete_eq.
      - destruct (known_waiter c data) as [[k0 a0]|] eqn:Ek0.
        + apply known_waiter_Some in Ek0 as (_ & Hk0 & Hl0).
          destruct Ha as (_ & _ & Hk). congruence.
        + by injection H as _ <- _. }
    assert (known_waiter c1 data' = None) as Hnone.
    { destruct (known_waiter c1 data') as [[k' a']|] eqn:Ek; [|done].
      apply known_waiter_Some in Ek as (_ & Hk' & Hl).
      destruct Ha' as (_ & _ & Hk). congruence. }
    eexists. split.
    + rewrite handle_response_hashable; [|apply Ha'|by eapply answers_hashable].
      cbn zeta. by rewrite Hnone.
    + apply events_of_at.
Qed.

Lemma answers_reply_1 (data : record) :
  get "request_id" data = JInt 1 -> is_message data = false -> answers data 1.
Proof. intros Hr Hm. repeat split; [done | by rewrite Hr..]. Qed.

Lemma unmatched_response_is_dropped_witness :
  (exists t, _handle_response (reply_ok 7) two_waiting = (Ok tt, two_waiting, t)
             /\ events_of t = error_log (reply_ok 7))
  /\ (let c1 := resolve 1 0%nat (reply_ok 1) two_waiting in
      exists t', _handle_response (reply_failed 1) c1 = (Ok tt, c1, t')
                 /\ events_of t' = error_log (reply_failed 1)).
Proof.
  split.
  - apply (proj1 (unmatched_response_is_dropped two_waiting (reply_ok 7)
                    eq_refl eq_refl)).
    reflexivity.
  - apply (proj2 (unmatched_response_is_dropped two_waiting (reply_ok 1)
                    eq_refl eq_refl)
             1 (Ok tt) (resolve 1 0%nat (reply_ok 1) two_waiting)
             (snd (_handle_response (reply_ok 1) two_waiting))).
    + by apply answers_reply_1.
    + by apply answers_reply_1.
    + reflexivity.
Defined.

(** C3 as claimed does not hold.  A response whose [request_id] is a list
    has no registered waiter, yet handling it raises [TypeError]: the
    reader ends, and the reply to request 1 that follows never reaches its
    waiter.  And a response that comes after its caller timed out is not
    without a waiter: the callback of the call is still registered. *)
Lemma unmatched_response_counterexample :
  is_message reply_list_id = false
  /\ known_waiter two_waiting reply_list_id = None
  /\ _handle_response reply_list_id two_waiting = (Raise TypeError, two_waiting, [])
  /\ (let r := _read_responses list_id_loads [line_list_id; line_reply "1"]
                               EndOfInput two_waiting in
      events_of (snd r) = [EPrint (ReaderErrorLine TypeError)]
      /\ running (snd (fst r)) = false
      /\ callbacks (snd (fst r)) !! 1 = Some 0%nat
      /\ heap (snd (fst r)) !! 0%nat = Some empty_slot)
  /\ (let c := snd (fst (ping_begin init)) in
      ping_end 0%nat c = (Raise (TimeoutError "Ping timeout"), c, [])
      /\ known_waiter c (reply_ok 1) = Some (1, 0%nat)).
Proof. repeat split; vm_compute; reflexivity. Qed.

(** C1. A response that carries the identifier of a registered waiter
    completes that waiter with the record and no other, whatever the
    reader has received before it, in whatever order, as long as the read
    loop is still running and no earlier record carried the same
    identifier. *)
Theorem response_reaches_its_waiter json_loads c earlier line data k a c1 t1 :
  pending c k a ->
  decoded_records json_loads earlier (fun d => ~ answers d k) ->
  read_lines json_loads earlier EndOfInput c = (Ok tt, c1, t1) ->
  strip line <> "" ->
  json_loads (strip line) = Decoded (JDict data) ->
  answers data k ->
  let c2 := resolve k a data c1 in
  exists t,
    read_line json_loads line c1 = (Ok tt, c2, t)
    /\ events_of t = error_log data
    /\ heap c2 !! a = Some (Slot data true)
    /\ callbacks c2 !! k = None
    /\ (forall a', a' <> a -> heap c2 !! a' = heap c1 !! a')
    /\ (forall k', k' <> k -> callbacks c2 !! k' = callbacks c1 !! k').
Proof.
  intros Hp Hearlier Hrun Hne Hdec Hans c2.
  assert (pending c1 k a) as (Hk & Ha & _) by by eapply read_lines_pending.
  eexists. split; [|split; [apply events_of_at|]].
  - rewrite (read_line_decoded _ _ data) by done.
    rewrite handle_response_hashable;
      [|apply Hans|by eapply answers_hashable].
    cbn zeta. by rewrite (answers_known c1 data k a).
  - repeat split.
    + subst c2. cbn. rewrite lookup_alter_eq, Ha. cbn.
      unfold run_callback. cbn. by rewrite (right_id_L ∅ (∪)).
    + subst c2. cbn. apply lookup_delete_eq.
    + intros a' Hna. subst c2. cbn. by rewrite lookup_alter_ne.
    + intros k' Hnk. subst c2. cbn. by rewrite lookup_delete_ne.
Qed.

Lemma two_waiting_pending_1 : pending two_waiting 1 0%nat.
Proof.
  repeat split. intros k' a' Hl ->.
  destruct (decide (k' = 1)) as [|H1]; [done|].
  destruct (decide (k' = 2)) as [->|H2]; [by vm_compute in Hl|].
  change (callbacks two_waiting) with (<[1 := 0%nat]> (<[2 := 1%nat]> ∅) : gmap Z nat) in Hl.
  by rewrite !lookup_insert_ne, lookup_empty in Hl by done.
Qed.

Lemma earlier_lines_not_1 :
  decoded_records sample_loads earlier_lines (fun d => ~ answers d 1).
Proof.
  intros l data Hin Hd (_ & _ & Hk).
  unfold earlier_lines in Hin.
  repeat (apply elem_of_cons in Hin as [-> | Hin]);
    try (by apply elem_of_nil in Hin);
    vm_compute in Hd; try discriminate.
  injection Hd as <-. vm_compute in Hk. discriminate.
Qed.

Lemma response_reaches_its_waiter_witness :
  let c2 := resolve 1 0%nat (reply_ok 1) after_earlier_lines in
  exists t,
    read_line sample_loads (line_reply "1") after_earlier_lines = (Ok tt, c2, t)
    /\ events_of t = error_log (reply_ok 1)
    /\ heap c2 !! 0%nat = Some (Slot (reply_ok 1) true)
    /\ callbacks c2 !! 1 = None
    /\ (forall a', a' <> 0%nat -> heap c2 !! a' = heap after_earlier_lines !! a')
    /\ (forall k', k' <> 1 -> callbacks c2 !! k' = callbacks after_earlier_lines !! k').
Proof.
  apply (response_reaches_its_waiter sample_loads two_waiting earlier_lines
           (line_reply "1") (reply_ok 1) 1 0%nat after_earlier_lines
           (snd (read_lines sample_loads earlier_lines EndOfInput two_waiting))).
  - apply two_waiting_pending_1.
  - apply earlier_lines_not_1.
  - reflexivity.
  - vm_compute. discriminate.
  - reflexivity.
  - repeat split; vm_compute; discriminate.
Defined.

(** ** Properties of the facade *)

Lemma store_handler_run topic h c :
  exists c',
    store_handler topic h c = (Ok tt, c', [])
    /\ message_handlers c' !! topic
       = Some (default [] (message_handlers c !! topic) ++ [h])
    /\ stdin_closed c' = stdin_closed c /\ request_id c' = request_id c
    /\ callbacks c' = callbacks c /\ heap c' = heap c.
Proof.
  unfold store_handler, bind, modify.
  destruct (message_handlers c !! topic) as [l|] eqn:E; cbn.
  - eexists. split; [done|]. cbn. rewrite lookup_alter_eq, E. done.
  - eexists. split; [done|]. cbn. rewrite lookup_alter_eq, lookup_insert_eq. done.
Qed.

Lemma drop_handlers_run topic c :
  exists c',
    drop_handlers topic c = (Ok tt, c', [])
    /\ message_handlers c' = delete topic (message_handlers c)
    /\ stdin_closed c' = stdin_closed c /\ request_id c' = request_id c
    /\ callbacks c' = callbacks c /\ heap c' = heap c.
Proof.
  unfold drop_handlers, modify.
  destruct (message_handlers c !! topic) as [l|] eqn:E; cbn.
  - eexists. by split.
  - eexists. split; [done|]. by rewrite delete_id.
Qed.

(** C9. [subscribe] appends the handler to the list of the topic before
    the command is written: in the state in which the write happens, and
    in the state the call leaves behind, the handler is the last of the
    topic's list.  On an open pipe exactly one command is written. *)
Theorem subscribe_registers_before_write topic h c o c1 t :
  subscribe_begin topic h c = (o, c1, t) ->
  let hs := default [] (message_handlers c !! topic) ++ [h] in
  message_handlers c1 !! topic = Some hs
  /\ (forall cs e, (cs, e) ∈ t -> message_handlers cs !! topic = Some hs)
  /\ (stdin_closed c = false ->
      events_of t = [EWrite (numbered (subscribe_command topic) c)]
      /\ exists a, o = Ok a /\ callbacks c1 !! (request_id c + 1) = Some a).
Proof.
  intros H hs. unfold subscribe_begin in H.
  destruct (store_handler_run topic h c) as (c' & Hrun & Hhs & Hcl & Hrid & Hcb & Hhp).
  erewrite bind_ok in H by exact Hrun. rewrite call_begin_run in H.
  rewrite Hcl in H. unfold numbered in *. rewrite Hrid in H.
  destruct (stdin_closed c) eqn:Ec; injection H as <- <- <-.
  - split; [exact Hhs|]. split; [|done].
    intros cs e Hin. by apply elem_of_nil in Hin.
  - split; [exact Hhs|]. split.
    + intros cs e Hin. apply list_elem_of_singleton in Hin as [= -> ->].
      exact Hhs.
    + intros _. split; [done|]. eexists. split; [done|].
      cbn. rewrite Hrid. apply lookup_insert_eq.
Qed.

Lemma subscribe_registers_before_write_witness :
  let r := subscribe_begin "events" h_print two_waiting in
  let hs := [h_broken; h_print; h_print] in
  message_handlers (snd (fst r)) !! "events" = Some hs
  /\ (forall cs e, (cs, e) ∈ snd r -> message_handlers cs !! "events" = Some hs)
  /\ (stdin_closed two_waiting = false ->
      events_of (snd r) = [EWrite (numbered (subscribe_command "events") two_waiting)]
      /\ exists a, fst (fst r) = Ok a
                   /\ callbacks (snd (fst r)) !! (request_id two_waiting + 1) = Some a).
Proof.
  apply (subscribe_registers_before_write "events" h_print two_waiting).
  by destruct (subscribe_begin "events" h_print two_waiting) as [[??]?].
Defined.

(** C8. [unsubscribe] removes the whole list of the topic before the
    command is written and whether or not the write succeeds.  Whatever
    the reader receives afterwards, an acknowledgement or nothing, a push
    to the topic calls no handler. *)
Theorem unsubscribe_removes_all json_loads topic c o c1 t :
  unsubscribe_begin topic c = (o, c1, t) ->
  message_handlers c1 = delete topic (message_handlers c)
  /\ (forall cs e, (cs, e) ∈ t -> message_handlers cs !! topic = None)
  /\ (forall lines fin o2 c2 t2 m,
        read_lines json_loads lines fin c1 = (o2, c2, t2) ->
        is_message m = true -> get "topic" m = JStr topic ->
        _handle_response m c2 = (Ok tt, c2, [])).
Proof.
  intros H. unfold unsubscribe_begin in H.
  destruct (drop_handlers_run topic c) as (c' & Hrun & Hhs & Hcl & Hrid & Hcb & Hhp).
  erewrite bind_ok in H by exact Hrun. rewrite call_begin_run in H.
  assert (message_handlers c1 = delete topic (message_handlers c)) as H1.
  { destruct (stdin_closed c'); injection H as <- <- <-; exact Hhs. }
  split; [done|]. split.
  - intros cs e Hin.
    destruct (stdin_closed c'); injection H as <- <- <-.
    + by apply elem_of_nil in Hin.
    + apply list_elem_of_singleton in Hin as [= -> ->].
      cbn. rewrite Hhs. apply lookup_delete_eq.
  - intros lines fin o2 c2 t2 m Hr Hm Ht.
    apply read_lines_handlers in Hr.
    rewrite handle_response_message by done.
    unfold handle_message, bind, read. rewrite Ht. cbn.
    by rewrite Hr, H1, lookup_delete_eq.
Qed.

Lemma unsubscribe_removes_all_witness :
  let r := unsubscribe_begin "events" two_waiting in
  message_handlers (snd (fst r)) = delete "events" (message_handlers two_waiting)
  /\ (forall cs e, (cs, e) ∈ snd r -> message_handlers cs !! "events" = None)
  /\ (forall lines fin o2 c2 t2 m,
        read_lines sample_loads lines fin (snd (fst r)) = (o2, c2, t2) ->
        is_message m = true -> get "topic" m = JStr "events" ->
        _handle_response m c2 = (Ok tt, c2, [])).
Proof.
  intros r.
  apply (unsubscribe_removes_all sample_loads "events" two_waiting
           (fst (fst r)) (snd (fst r)) (snd r)).
  unfold r. by destruct (unsubscribe_begin "events" two_waiting) as [[??]?].
Defined.


Lemma pending_set_running b c k a : pending c k a -> pending (set_running b c) k a.
Proof. by intros (? & ? & ?). Qed.

Lemma result_of_run a c :
  result_of a c = (Ok (result (default empty_slot (heap c !! a))), c, []).
Proof. done. Qed.

Lemma answered_not_empty data k : answers data k -> is_empty data = false.
Proof.
  intros (_ & Hnn & _). unfold is_empty. apply bool_decide_eq_false_2.
  intros Hs%map_size_empty_iff. subst data. by apply Hnn.
Qed.

Lemma read_responses_full json_loads lines fin c o c1 t :
  _read_responses json_loads lines fin c = (o, c1, t) ->
  exists o' c' t',
    read_lines json_loads lines fin c = (o', c', t')
    /\ c1 = set_running false c'
    /\ t = t' ++ match o' with
                 | Raise e =>
                     if is_Exception e then [(c', EPrint (ReaderErrorLine e))] else []
                 | Ok _ => []
                 end.
Proof.
  unfold _read_responses, try_finally, try_except, modify, emit.
  destruct (read_lines json_loads lines fin c) as [[[[]|e] c'] t'] eqn:E.
  - intros [= _ <- <-]. eexists _, _, _.
    split; [reflexivity|]. split; [reflexivity|]. done.
  - destruct (is_Exception e) eqn:Ee; intros [= _ <- <-]; eexists _, _, _;
      (split; [reflexivity|]); (split; [reflexivity|]);
      rewrite Ee, ?app_nil_r; done.
Qed.

Lemma send_ignores_running b command callback c :
  _send command callback (set_running b c)
  = (let '(o, c2, t) := _send command callback c in
     (o, set_running b c2, map (fun se => (set_running b (fst se), snd se)) t)).
Proof.
  rewrite !send_run. destruct c as [rid cbs hs run closed hp].
  destruct callback as [a|], closed; reflexivity.
Qed.

(** C2, as the code has it.  When the stream ends, with or without a
    fault, the read loop clears [running] and does nothing else, apart
    from printing a fault that is an [Exception] as a reader error.  A
    waiter that was pending and received no response is still registered
    and not completed.  A command sent afterwards is not refused: [_send]
    does what it does when [running] is set, with the same outcome and the
    same events, so it takes the next identifier and registers its
    callback before it comes to its write. *)
Theorem stream_end_only_clears_running json_loads lines fin c o c1 t :
  _read_responses json_loads lines fin c = (o, c1, t) ->
  running c1 = false
  /\ (exists o' c' t',
        read_lines json_loads lines fin c = (o', c', t')
        /\ c1 = set_running false c'
        /\ t = t' ++ match o' with
                     | Raise e =>
                         if is_Exception e
                         then [(c', EPrint (ReaderErrorLine e))] else []
                     | Ok _ => []
                     end
        /\ forall command callback,
             _send command callback c1
             = (let '(o2, c2, t2) := _send command callback c' in
                (o2, set_running false c2,
                 map (fun se => (set_running false (fst se), snd se)) t2)))
  /\ (forall k a,
        pending c k a ->
        decoded_records json_loads lines (fun d => ~ answers d k) ->
        pending c1 k a)
  /\ (forall command callback,
        let c2 := snd (fst (_send command callback c1)) in
        request_id c2 = request_id c1 + 1
        /\ forall a, callback = Some a ->
                     callbacks c2 !! (request_id c1 + 1) = Some a).
Proof.
  intros H. apply read_responses_full in H as (o' & c' & t' & Hr & -> & ->).
  split; [done|]. split; [|split].
  - exists o', c', t'. repeat split; try done.
    intros command callback. apply send_ignores_running.
  - intros k a Hp Hn. apply pending_set_running. by eapply read_lines_pending.
  - intros command callback. rewrite send_run. cbn [fst snd].
    split; [by destruct callback|].
    intros a ->. cbn. apply lookup_insert_eq.
Qed.

Lemma stream_end_only_clears_running_witness :
  let lines := ["{not json" +:+ newline; line_reply "2"] in
  let fin := ReadFault (OtherException "read failed") in
  let r := _read_responses sample_loads lines fin two_waiting in
  let c1 := snd (fst r) in
  running c1 = false
  /\ (exists o' c' t',
        read_lines sample_loads lines fin two_waiting = (o', c', t')
        /\ c1 = set_running false c'
        /\ snd r = t' ++ match o' with
                         | Raise e =>
                             if is_Exception e
                             then [(c', EPrint (ReaderErrorLine e))] else []
                         | Ok _ => []
                         end
        /\ forall command callback,
             _send command callback c1
             = (let '(o2, c2, t2) := _send command callback c' in
                (o2, set_running false c2,
                 map (fun se => (set_running false (fst se), snd se)) t2)))
  /\ (forall k a,
        pending two_waiting k a ->
        decoded_records sample_loads lines (fun d => ~ answers d k) ->
        pending c1 k a)
  /\ (forall command callback,
        let c2 := snd (fst (_send command callback c1)) in
        request_id c2 = request_id c1 + 1
        /\ forall a, callback = Some a ->
                     callbacks c2 !! (request_id c1 + 1) = Some a).
Proof.
  intros lines fin r c1.
  apply (stream_end_only_clears_running sample_loads lines fin
           two_waiting (fst (fst r)) c1 (snd r)).
  unfold c1, r.
  by destruct (_read_responses sample_loads lines fin two_waiting) as [[??]?].
Defined.

(** C2 as claimed does not hold: after the end of the stream the two
    waiters are still registered with their results empty and their events
    unset, and a [ping] issued afterwards is written to the pipe. *)
Lemma connection_loss_counterexample :
  let c1 := snd (fst (_read_responses sample_loads [] EndOfInput two_waiting)) in
  running c1 = false
  /\ callbacks c1 !! 1 = Some 0%nat /\ heap c1 !! 0%nat = Some empty_slot
  /\ callbacks c1 !! 2 = Some 1%nat /\ heap c1 !! 1%nat = Some empty_slot
  /\ fst (fst (ping_begin c1)) = Ok 2%nat
  /\ events_of (snd (ping_begin c1)) = [EWrite (numbered ping_command c1)]
  /\ callbacks (snd (fst (ping_begin c1))) !! 3 = Some 2%nat.
Proof. repeat split; reflexivity. Qed.

(** C4, as the code has it.  When the wait of [publish], [subscribe] or
    [ping] ends without a response for the call, the call raises
    [TimeoutError].  Nothing is removed: the callback of the call is still
    registered under its identifier when the call has returned. *)
Theorem timeout_keeps_the_entry json_loads c k a lines fin o c2 t2 :
  pending c k a ->
  decoded_records json_loads lines (fun d => ~ answers d k) ->
  read_lines json_loads lines fin c = (o, c2, t2) ->
  publish_end a c2 = (Raise (TimeoutError "Publish timeout"), c2, [])
  /\ subscribe_end a c2 = (Raise (TimeoutError "Subscribe timeout"), c2, [])
  /\ ping_end a c2 = (Raise (TimeoutError "Ping timeout"), c2, [])
  /\ callbacks c2 !! k = Some a.
Proof.
  intros Hp Hn Hr.
  assert (pending c2 k a) as (Hk & Ha & _) by by eapply read_lines_pending.
  unfold publish_end, subscribe_end, ping_end.
  repeat split; try done;
    (erewrite bind_ok by apply result_of_run); by rewrite Ha.
Qed.

Lemma init_closed_registry : closed_registry init.
Proof. apply map_Forall_empty. Qed.

Lemma timeout_keeps_the_entry_witness :
  let c := snd (fst (ping_begin init)) in
  let a := new_addr init in
  let r := read_lines sample_loads [line_reply "2"] EndOfInput c in
  let c2 := snd (fst r) in
  publish_end a c2 = (Raise (TimeoutError "Publish timeout"), c2, [])
  /\ subscribe_end a c2 = (Raise (TimeoutError "Subscribe timeout"), c2, [])
  /\ ping_end a c2 = (Raise (TimeoutError "Ping timeout"), c2, [])
  /\ callbacks c2 !! 1 = Some a.
Proof.
  intros c a r c2.
  apply (timeout_keeps_the_entry sample_loads c 1 a [line_reply "2"] EndOfInput
           (fst (fst r)) c2 (snd r)).
  - apply (call_begin_pending init), init_closed_registry.
  - intros l data Hin Hd (_ & _ & Hk).
    apply list_elem_of_singleton in Hin as ->.
    vm_compute in Hd. injection Hd as <-. vm_compute in Hk. discriminate.
  - unfold c2, r.
    by destruct (read_lines sample_loads [line_reply "2"] EndOfInput c) as [[??]?].
Defined.

(** C4 as claimed does not hold: a [ping] that got no response fails with
    [TimeoutError] and its callback is still registered under identifier 1
    afterwards; an [unsubscribe] that got no response returns the empty
    record. *)
Lemma timeout_counterexample :
  let c1 := snd (fst (ping_begin init)) in
  fst (fst (ping_begin init)) = Ok 0%nat
  /\ ping_end 0%nat c1 = (Raise (TimeoutError "Ping timeout"), c1, [])
  /\ callbacks c1 !! 1 = Some 0%nat
  /\ let c2 := snd (fst (unsubscribe_begin "events" init)) in
     fst (fst (unsubscribe_begin "events" init)) = Ok 0%nat
     /\ unsubscribe_end 0%nat c2 = (Ok ∅, c2, [])
     /\ callbacks c2 !! 1 = Some 0%nat.
Proof. repeat split; reflexivity. Qed.

(** C5, as the code has it.  When the waiter of a [publish] or of a
    [subscribe] was completed with a response record, the call returns the
    record if its [status] is ["ok"], and otherwise raises an exception
    that carries the record's [error] (or the fixed text of the operation
    when the record has none). *)
Theorem resolved_call_outcome c k a data o c1 t :
  pending c k a ->
  answers data k ->
  _handle_response data c = (o, c1, t) ->
  publish_end a c1
  = (if eq_str (get "status" data) "ok" then Ok data
     else Raise (PyException (get_or "error" (JStr "Publish failed") data)),
     c1, [])
  /\ subscribe_end a c1
     = (if eq_str (get "status" data) "ok" then Ok data
        else Raise (PyException (get_or "error" (JStr "Subscribe failed") data)),
        c1, []).
Proof.
  intros (Hk & Ha & _) Hans H.
  rewrite handle_response_hashable in H;
    [|apply Hans|by eapply answers_hashable].
  cbn zeta in H. rewrite (answers_known c data k a) in H by done.
  injection H as _ <- _.
  assert (heap (resolve k a data c) !! a = Some (Slot data true)) as Hs.
  { cbn. rewrite lookup_alter_eq, Ha. cbn. unfold run_callback. cbn.
    by rewrite (right_id_L ∅ (∪)). }
  unfold publish_end, subscribe_end.
  split; (erewrite bind_ok by apply result_of_run); rewrite Hs; cbn [from_option id result];
    rewrite (answered_not_empty data k) by done;
    by destruct (eq_str (get "status" data) "ok").
Qed.

Lemma two_waiting_pending_2 : pending two_waiting 2 1%nat.
Proof.
  repeat split. intros k' a' Hl ->.
  destruct (decide (k' = 2)) as [|H2]; [done|].
  destruct (decide (k' = 1)) as [->|H1]; [by vm_compute in Hl|].
  change (callbacks two_waiting) with (<[1 := 0%nat]> (<[2 := 1%nat]> ∅) : gmap Z nat) in Hl.
  by rewrite !lookup_insert_ne, lookup_empty in Hl by done.
Qed.

Lemma resolved_call_outcome_witness :
  let c1 := resolve 2 1%nat (reply_failed 2) two_waiting in
  publish_end 1%nat c1 = (Raise (PyException (JStr "no such topic")), c1, [])
  /\ subscribe_end 1%nat c1 = (Raise (PyException (JStr "no such topic")), c1, []).
Proof.
  apply (resolved_call_outcome two_waiting 2 1%nat (reply_failed 2) (Ok tt)
           (resolve 2 1%nat (reply_failed 2) two_waiting)
           (snd (_handle_response (reply_failed 2) two_waiting))).
  - apply two_waiting_pending_2.
  - repeat split; vm_compute; discriminate.
  - reflexivity.
Defined.

(** C5 as claimed does not hold for every operation: a [ping] and an
    [unsubscribe] whose waiter was completed with a record of status
    ["error"] return the record. *)
Lemma status_counterexample :
  let c1 := resolve 2 1%nat (reply_failed 2) two_waiting in
  eq_str (get "status" (reply_failed 2)) "ok" = false
  /\ heap c1 !! 1%nat = Some (Slot (reply_failed 2) true)
  /\ ping_end 1%nat c1 = (Ok (reply_failed 2), c1, [])
  /\ unsubscribe_end 1%nat c1 = (Ok (reply_failed 2), c1, []).
Proof. repeat split; reflexivity. Qed.

(** ** Well-formed states *)

Lemma well_formed_closed c : well_formed c -> closed_registry c.
Proof.
  intros [_ Hw] k a Hl. destruct (Hw k a Hl) as (_ & _ & Ha & _). by eexists.
Qed.

Lemma well_formed_ext c c' :
  request_id c' = request_id c -> callbacks c' = callbacks c -> heap c' = heap c ->
  well_formed c -> well_formed c'.
Proof.
  unfold well_formed, pending. intros -> -> ->. done.
Qed.

Lemma well_formed_init : well_formed init.
Proof. split; [done | apply map_Forall_empty]. Qed.

Lemma well_formed_resolve k a data c :
  well_formed c -> callbacks c !! k = Some a -> well_formed (resolve k a data c).
Proof.
  intros [H0 Hw] Hk. split; [done|].
  intros k' a' Hl. cbn in Hl. apply lookup_delete_Some in Hl as [Hne Hl].
  destruct (Hw k' a' Hl) as [Hr Hp]. split; [done|].
  by apply pending_resolve_other.
Qed.

Lemma well_formed_call_begin c :
  well_formed c -> well_formed (sent (Some (new_addr c)) (allocated c)).
Proof.
  intros Hwf. pose proof (well_formed_closed c Hwf) as Hc.
  destruct Hwf as [H0 Hw]. split; [cbn; lia|].
  intros k a Hl. cbn in Hl.
  destruct (decide (k = request_id c + 1)) as [->|Hne].
  - rewrite lookup_insert_eq in Hl. injection Hl as <-.
    split; [cbn; lia | by apply call_begin_pending].
  - rewrite lookup_insert_ne in Hl by done.
    destruct (Hw k a Hl) as (Hr & Hk & Ha & Hu).
    assert (a <> new_addr c) as Hna.
    { intros ->. by rewrite new_addr_fresh in Ha. }
    split; [cbn; lia|]. repeat split; cbn.
    + by rewrite lookup_insert_ne.
    + by rewrite lookup_insert_ne.
    + intros k' a' Hl' ->.
      destruct (decide (k' = request_id c + 1)) as [->|Hne'].
      * rewrite lookup_insert_eq in Hl'. by injection Hl' as <-.
      * rewrite lookup_insert_ne in Hl' by done. by apply (Hu k' a).
Qed.

Lemma well_formed_sent_None c : well_formed c -> well_formed (sent None c).
Proof.
  intros [H0 Hw]. split; [cbn; lia|].
  intros k a Hl. destruct (Hw k a Hl) as [Hr Hp]. split; [cbn; lia | done].
Qed.

Lemma well_formed_set_running b c : well_formed c -> well_formed (set_running b c).
Proof. by apply well_formed_ext. Qed.

Lemma well_formed_call_begin_run command c o c1 t :
  well_formed c ->
  (let! a := new_callback in _send command (Some a) >>> ret a) c = (o, c1, t) ->
  well_formed c1.
Proof.
  intros Hwf. rewrite call_begin_run.
  intros [= _ <- _]. by apply well_formed_call_begin.
Qed.

Lemma shutdown_run c :
  shutdown c
  = if stdin_closed c then (Raise ValueError, sent None c, [])
    else (Ok tt, set_running false (set_stdin_closed true (sent None c)),
          [(sent None c, EWrite (numbered {[ "op" := JStr "shutdown" ]} c));
           (sent None c, EClose)]).
Proof.
  unfold shutdown, bind. rewrite send_run.
  destruct c as [rid cbs hs run closed hp]. by destruct closed.
Qed.

Lemma step_well_formed json_loads c c1 :
  step json_loads c c1 -> well_formed c -> well_formed c1.
Proof.
  intros Hs Hwf. destruct Hs as
    [line c o c1 t H | c | topic payload metadata c o c1 t H | topic h c o c1 t H
    | topic c o c1 t H | c o c1 t H | c o c1 t H].
  - apply read_line_state in H as [-> | (data & k & a & _ & _ & Hl & ->)]; [done|].
    by apply well_formed_resolve.
  - by apply well_formed_set_running.
  - by eapply well_formed_call_begin_run.
  - unfold subscribe_begin in H.
    destruct (store_handler_run topic h c) as (c' & Hrun & _ & _ & Hrid & Hcb & Hhp).
    erewrite bind_ok in H by exact Hrun.
    rewrite call_begin_run in H. injection H as _ <- _.
    apply well_formed_call_begin. by eapply well_formed_ext.
  - unfold unsubscribe_begin in H.
    destruct (drop_handlers_run topic c) as (c' & Hrun & _ & _ & Hrid & Hcb & Hhp).
    erewrite bind_ok in H by exact Hrun.
    rewrite call_begin_run in H. injection H as _ <- _.
    apply well_formed_call_begin. by eapply well_formed_ext.
  - by eapply well_formed_call_begin_run.
  - rewrite shutdown_run in H. destruct (stdin_closed c); injection H as _ <- _.
    + by apply well_formed_sent_None.
    + eapply well_formed_ext; [..|by apply well_formed_sent_None]; done.
Qed.

Lemma reachable_well_formed json_loads c : reachable json_loads c -> well_formed c.
Proof.
  unfold reachable. intros H.
  apply (rtc_ind_r well_formed init (R := step json_loads));
    [apply well_formed_init | | done].
  intros y z _ Hs Hy. by eapply step_well_formed.
Qed.

(** ** Further properties: identifiers and the registry *)

(** X1. In every state a client reaches from [__init__], each registered
    callback sits under an identifier between 1 and the counter, is
    registered under that identifier only, and its result is still empty
    with its event unset. *)
Theorem registered_callbacks_are_pending json_loads c k a :
  reachable json_loads c ->
  callbacks c !! k = Some a ->
  0 < k <= request_id c /\ pending c k a.
Proof.
  intros Hr Hl. apply reachable_well_formed in Hr as [_ Hw]. by apply Hw.
Qed.

Lemma after_ping_reachable json_loads :
  reachable json_loads (snd (fst (ping_begin init))).
Proof.
  apply rtc_once. apply (step_ping json_loads init (fst (fst (ping_begin init)))
                           _ (snd (ping_begin init))).
  by destruct (ping_begin init) as [[??]?].
Qed.

Lemma registered_callbacks_are_pending_witness :
  let c := snd (fst (ping_begin init)) in
  0 < 1 <= request_id c /\ pending c 1 0%nat.
Proof.
  apply (registered_callbacks_are_pending sample_loads
           (snd (fst (ping_begin init))) 1 0%nat).
  - apply after_ping_reachable.
  - reflexivity.
Defined.

(** X2. In every reachable state the identifier the next [_send] takes is
    not in use, so sending never replaces a registered callback: every
    callback registered before is registered afterwards. *)
Theorem send_takes_an_unused_id json_loads c :
  reachable json_loads c ->
  callbacks c !! (request_id c + 1) = None
  /\ forall command callback k a,
       callbacks c !! k = Some a ->
       callbacks (snd (fst (_send command callback c))) !! k = Some a.
Proof.
  intros Hr. apply reachable_well_formed in Hr as [_ Hw].
  assert (forall k a, callbacks c !! k = Some a -> k <> request_id c + 1) as Hne.
  { intros k a Hl ->. destruct (Hw _ _ Hl) as [? _]. lia. }
  split.
  - destruct (callbacks c !! (request_id c + 1)) eqn:E; [|done].
    by apply Hne in E.
  - intros command callback k a Hl. rewrite send_run. cbn [fst snd].
    destruct callback as [a'|]; cbn; [|done].
    rewrite lookup_insert_ne; [done|]. intros E. by eapply Hne.
Qed.

Lemma send_takes_an_unused_id_witness :
  let c := snd (fst (ping_begin init)) in
  callbacks c !! (request_id c + 1) = None
  /\ forall command callback k a,
       callbacks c !! k = Some a ->
       callbacks (snd (fst (_send command callback c))) !! k = Some a.
Proof.
  apply (send_takes_an_unused_id sample_loads (snd (fst (ping_begin init)))).
  apply after_ping_reachable.
Defined.

(** X3. On an open pipe two sends in a row return consecutive identifiers,
    the counter plus one and plus two, and write the two commands in that
    order, each carrying the identifier returned for it. *)
Theorem sends_number_consecutively c command1 callback1 command2 callback2 :
  stdin_closed c = false ->
  exists c2 t,
    (let! i := _send command1 callback1 in
     let! j := _send command2 callback2 in ret (i, j)) c
    = (Ok (request_id c + 1, request_id c + 2), c2, t)
    /\ request_id c2 = request_id c + 2
    /\ events_of t
       = [EWrite (<["request_id" := JInt (request_id c + 1)]> command1);
          EWrite (<["request_id" := JInt (request_id c + 2)]> command2)].
Proof.
  intros Hopen. eexists _, _.
  erewrite bind_ok by (rewrite send_run, Hopen; reflexivity).
  erewrite bind_ok.
  2:{ rewrite send_run. 
      replace (stdin_closed (sent callback1 c)) with false
        by (by destruct callback1). reflexivity. }
  cbn [ret app]. unfold numbered.
  replace (request_id (sent callback1 c)) with (request_id c + 1)
    by (by destruct callback1).
  replace (request_id c + 1 + 1) with (request_id c + 2) by lia.
  split; [reflexivity|]. split; [|done].
  destruct callback1, callback2; cbn; lia.
Qed.

Lemma sends_number_consecutively_witness :
  exists c2 t,
    (let! i := _send ping_command None in
     let! j := _send (subscribe_command "events") None in ret (i, j)) two_waiting
    = (Ok (3, 4), c2, t)
    /\ request_id c2 = 4
    /\ events_of t
       = [EWrite (<["request_id" := JInt 3]> ping_command);
          EWrite (<["request_id" := JInt 4]> (subscribe_command "events"))].
Proof.
  apply (sends_number_consecutively two_waiting ping_command None
           (subscribe_command "events") None).
  reflexivity.
Defined.

(** ** Further properties: a call from start to end *)

Lemma closed_registry_ext c c' :
  callbacks c' = callbacks c -> heap c' = heap c ->
  closed_registry c -> closed_registry c'.
Proof. unfold closed_registry. by intros -> ->. Qed.

Lemma call_begin_ok command c a c1 t :
  closed_registry c ->
  (let! a := new_callback in _send command (Some a) >>> ret a) c = (Ok a, c1, t) ->
  stdin_closed c = false
  /\ pending c1 (request_id c + 1) a
  /\ t = [(c1, EWrite (numbered command c))].
Proof.
  intros Hc. rewrite call_begin_run.
  destruct (stdin_closed c); [done|]. intros [= <- <- <-].
  split; [done|]. split; [by apply call_begin_pending | done].
Qed.

Lemma ping_begin_ok c a c1 t :
  closed_registry c -> ping_begin c = (Ok a, c1, t) ->
  pending c1 (request_id c + 1) a.
Proof. intros Hc H. by eapply call_begin_ok. Qed.

Lemma publish_begin_ok topic payload metadata c a c1 t :
  closed_registry c -> publish_begin topic payload metadata c = (Ok a, c1, t) ->
  pending c1 (request_id c + 1) a.
Proof. intros Hc H. by eapply call_begin_ok. Qed.

Lemma subscribe_begin_ok topic h c a c1 t :
  closed_registry c -> subscribe_begin topic h c = (Ok a, c1, t) ->
  pending c1 (request_id c + 1) a.
Proof.
  intros Hc H. unfold subscribe_begin in H.
  destruct (store_handler_run topic h c) as (c' & Hrun & _ & _ & Hrid & Hcb & Hhp).
  erewrite bind_ok in H by exact Hrun.
  destruct ((let! a := new_callback in _ >>> ret a) c') as [[o' c''] t'] eqn:E.
  injection H as -> -> _. rewrite <- Hrid.
  eapply call_begin_ok; [|exact E]. by eapply closed_registry_ext.
Qed.

Lemma unsubscribe_begin_ok topic c a c1 t :
  closed_registry c -> unsubscribe_begin topic c = (Ok a, c1, t) ->
  pending c1 (request_id c + 1) a.
Proof.
  intros Hc H. unfold unsubscribe_begin in H.
  destruct (drop_handlers_run topic c) as (c' & Hrun & _ & _ & Hrid & Hcb & Hhp).
  erewrite bind_ok in H by exact Hrun.
  destruct ((let! a := new_callback in _ >>> ret a) c') as [[o' c''] t'] eqn:E.
  injection H as -> -> _. rewrite <- Hrid.
  eapply call_begin_ok; [|exact E]. by eapply closed_registry_ext.
Qed.

(** The reply to a pending call, read after lines that do not answer it,
    fills the call's result and removes its callback. *)
Lemma reply_fills_the_slot json_loads c k a earlier c1 t1 line data :
  pending c k a ->
  decoded_records json_loads earlier (fun d => ~ answers d k) ->
  read_lines json_loads earlier EndOfInput c = (Ok tt, c1, t1) ->
  strip line <> "" ->
  json_loads (strip line) = Decoded (JDict data) ->
  answers data k ->
  exists c2 t,
    read_line json_loads line c1 = (Ok tt, c2, t)
    /\ heap c2 !! a = Some (Slot data true)
    /\ callbacks c2 !! k = None.
Proof.
  intros Hp Hearlier Hrun Hne Hdec Hans.
  assert (pending c1 k a) as (Hk & Ha & _) by by eapply read_lines_pending.
  exists (resolve k a data c1). eexists. split; [|split].
  - rewrite (read_line_decoded _ _ data) by done.
    rewrite handle_response_hashable;
      [|apply Hans|by eapply answers_hashable].
    cbn zeta. by rewrite (answers_known c1 data k a).
  - cbn. rewrite lookup_alter_eq, Ha. cbn. unfold run_callback. cbn.
    by rewrite (right_id_L ∅ (∪)).
  - cbn. apply lookup_delete_eq.
Qed.

Lemma end_of_filled_slot a c data k :
  heap c !! a = Some (Slot data true) -> answers data k ->
  result_of a c = (Ok data, c, []) /\ is_empty data = false.
Proof.
  intros Hs Ha. split; [|by eapply answered_not_empty].
  rewrite result_of_run. by rewrite Hs.
Qed.

(** X4. A [ping] or an [unsubscribe] that was sent and whose reply is read
    afterwards, possibly after lines meant for others, returns the reply
    record as it is, whatever its status, and its callback is no longer
    registered. *)
Theorem answered_ping_returns_the_reply json_loads c topic earlier line data :
  closed_registry c ->
  decoded_records json_loads earlier (fun d => ~ answers d (request_id c + 1)) ->
  strip line <> "" ->
  json_loads (strip line) = Decoded (JDict data) ->
  answers data (request_id c + 1) ->
  (forall a c1 t1 c1' t1',
     ping_begin c = (Ok a, c1, t1) ->
     read_lines json_loads earlier EndOfInput c1 = (Ok tt, c1', t1') ->
     exists c2 t2,
       read_line json_loads line c1' = (Ok tt, c2, t2)
       /\ ping_end a c2 = (Ok data, c2, [])
       /\ callbacks c2 !! (request_id c + 1) = None)
  /\ (forall a c1 t1 c1' t1',
        unsubscribe_begin topic c = (Ok a, c1, t1) ->
        read_lines json_loads earlier EndOfInput c1 = (Ok tt, c1', t1') ->
        exists c2 t2,
          read_line json_loads line c1' = (Ok tt, c2, t2)
          /\ unsubscribe_end a c2 = (Ok data, c2, [])
          /\ callbacks c2 !! (request_id c + 1) = None).
Proof.
  intros Hc Hearlier Hne Hdec Hans. split.
  - intros a c1 t1 c1' t1' Hb Hr.
    apply ping_begin_ok in Hb; [|done].
    destruct (reply_fills_the_slot json_loads c1 (request_id c + 1) a earlier c1' t1'
                line data)
      as (c2 & t2 & Hl & Hs & Hk); try done.
    exists c2, t2. split; [done|]. split; [|done].
    destruct (end_of_filled_slot a c2 data (request_id c + 1) Hs Hans) as [Hres Hemp].
    unfold ping_end. erewrite bind_ok by exact Hres. by rewrite Hemp.
  - intros a c1 t1 c1' t1' Hb Hr.
    apply unsubscribe_begin_ok in Hb; [|done].
    destruct (reply_fills_the_slot json_loads c1 (request_id c + 1) a earlier c1' t1'
                line data)
      as (c2 & t2 & Hl & Hs & Hk); try done.
    exists c2, t2. split; [done|]. split; [|done].
    by destruct (end_of_filled_slot a c2 data (request_id c + 1) Hs Hans) as [Hres Hemp].
Qed.

(** X5. A [publish] or a [subscribe] that was sent and whose reply is read
    afterwards returns the reply record when its status is ["ok"], and
    otherwise raises an exception with the reply's [error] (the fixed text
    of the operation when there is none); in both cases the callback is no
    longer registered. *)
Theorem answered_publish_checks_the_status json_loads c topic payload metadata h
    earlier line data :
  closed_registry c ->
  decoded_records json_loads earlier (fun d => ~ answers d (request_id c + 1)) ->
  strip line <> "" ->
  json_loads (strip line) = Decoded (JDict data) ->
  answers data (request_id c + 1) ->
  (forall a c1 t1 c1' t1',
     publish_begin topic payload metadata c = (Ok a, c1, t1) ->
     read_lines json_loads earlier EndOfInput c1 = (Ok tt, c1', t1') ->
     exists c2 t2,
       read_line json_loads line c1' = (Ok tt, c2, t2)
       /\ publish_end a c2
          = (if eq_str (get "status" data) "ok" then Ok data
             else Raise (PyException (get_or "error" (JStr "Publish failed") data)),
             c2, [])
       /\ callbacks c2 !! (request_id c + 1) = None)
  /\ (forall a c1 t1 c1' t1',
        subscribe_begin topic h c = (Ok a, c1, t1) ->
        read_lines json_loads earlier EndOfInput c1 = (Ok tt, c1', t1') ->
        exists c2 t2,
          read_line json_loads line c1' = (Ok tt, c2, t2)
          /\ subscribe_end a c2
             = (if eq_str (get "status" data) "ok" then Ok data
                else Raise (PyException (get_or "error" (JStr "Subscribe failed") data)),
                c2, [])
          /\ callbacks c2 !! (request_id c + 1) = None).
Proof.
  intros Hc Hearlier Hne Hdec Hans. split.
  - intros a c1 t1 c1' t1' Hb Hr.
    apply publish_begin_ok in Hb; [|done].
    destruct (reply_fills_the_slot json_loads c1 (request_id c + 1) a earlier c1' t1'
                line data)
      as (c2 & t2 & Hl & Hs & Hk); try done.
    exists c2, t2. split; [done|]. split; [|done].
    destruct (end_of_filled_slot a c2 data (request_id c + 1) Hs Hans) as [Hres Hemp].
    unfold publish_end. erewrite bind_ok by exact Hres. rewrite Hemp.
    by destruct (eq_str (get "status" data) "ok").
  - intros a c1 t1 c1' t1' Hb Hr.
    apply subscribe_begin_ok in Hb; [|done].
    destruct (reply_fills_the_slot json_loads c1 (request_id c + 1) a earlier c1' t1'
                line data)
      as (c2 & t2 & Hl & Hs & Hk); try done.
    exists c2, t2. split; [done|]. split; [|done].
    destruct (end_of_filled_slot a c2 data (request_id c + 1) Hs Hans) as [Hres Hemp].
    unfold subscribe_end. erewrite bind_ok by exact Hres. rewrite Hemp.
    by destruct (eq_str (get "status" data) "ok").
Qed.

Lemma answers_reply_ok_1 : answers (reply_ok 1) (request_id init + 1).
Proof. repeat split; vm_compute; discriminate. Qed.

Lemma strip_line_reply_1 : strip (line_reply "1") <> "".
Proof. vm_compute. discriminate. Qed.

Lemma answered_ping_returns_the_reply_witness :
  (let c1 := snd (fst (ping_begin init)) in
   let c1' := snd (fst (read_lines sample_loads earlier_lines EndOfInput c1)) in
   exists c2 t2,
     read_line sample_loads (line_reply "1") c1' = (Ok tt, c2, t2)
     /\ ping_end 0%nat c2 = (Ok (reply_ok 1), c2, [])
     /\ callbacks c2 !! (request_id init + 1) = None)
  /\ (let c1 := snd (fst (unsubscribe_begin "events" init)) in
      let c1' := snd (fst (read_lines sample_loads earlier_lines EndOfInput c1)) in
      exists c2 t2,
        read_line sample_loads (line_reply "1") c1' = (Ok tt, c2, t2)
        /\ unsubscribe_end 0%nat c2 = (Ok (reply_ok 1), c2, [])
        /\ callbacks c2 !! (request_id init + 1) = None).
Proof.
  pose proof (answered_ping_returns_the_reply sample_loads init "events"
                earlier_lines (line_reply "1") (reply_ok 1) init_closed_registry
                earlier_lines_not_1 strip_line_reply_1 eq_refl answers_reply_ok_1)
    as [Hping Hunsub].
  split.
  - apply (Hping 0%nat (snd (fst (ping_begin init))) (snd (ping_begin init))
             (snd (fst (read_lines sample_loads earlier_lines EndOfInput
                          (snd (fst (ping_begin init))))))
             (snd (read_lines sample_loads earlier_lines EndOfInput
                     (snd (fst (ping_begin init)))))); reflexivity.
  - apply (Hunsub 0%nat (snd (fst (unsubscribe_begin "events" init))) (snd (unsubscribe_begin "events" init))
             (snd (fst (read_lines sample_loads earlier_lines EndOfInput
                          (snd (fst (unsubscribe_begin "events" init))))))
             (snd (read_lines sample_loads earlier_lines EndOfInput
                     (snd (fst (unsubscribe_begin "events" init)))))); reflexivity.
Defined.

Lemma answered_publish_checks_the_status_witness :
  (let c1 := snd (fst (publish_begin "events" (JStr "hello") None init)) in
   let c1' := snd (fst (read_lines sample_loads earlier_lines EndOfInput c1)) in
   exists c2 t2,
     read_line sample_loads (line_reply "1") c1' = (Ok tt, c2, t2)
     /\ publish_end 0%nat c2 = (Ok (reply_ok 1), c2, [])
     /\ callbacks c2 !! (request_id init + 1) = None)
  /\ (let c1 := snd (fst (subscribe_begin "events" h_print init)) in
      let c1' := snd (fst (read_lines sample_loads earlier_lines EndOfInput c1)) in
      exists c2 t2,
        read_line sample_loads (line_reply "1") c1' = (Ok tt, c2, t2)
        /\ subscribe_end 0%nat c2 = (Ok (reply_ok 1), c2, [])
        /\ callbacks c2 !! (request_id init + 1) = None).
Proof.
  pose proof (answered_publish_checks_the_status sample_loads init "events"
                (JStr "hello") None h_print
                earlier_lines (line_reply "1") (reply_ok 1) init_closed_registry
                earlier_lines_not_1 strip_line_reply_1 eq_refl answers_reply_ok_1)
    as [Hpub Hsub].
  split.
  - apply (Hpub 0%nat (snd (fst (publish_begin "events" (JStr "hello") None init))) (snd (publish_begin "events" (JStr "hello") None init))
             (snd (fst (read_lines sample_loads earlier_lines EndOfInput
                          (snd (fst (publish_begin "events" (JStr "hello") None init))))))
             (snd (read_lines sample_loads earlier_lines EndOfInput
                     (snd (fst (publish_begin "events" (JStr "hello") None init))))));
      reflexivity.
  - apply (Hsub 0%nat (snd (fst (subscribe_begin "events" h_print init))) (snd (subscribe_begin "events" h_print init))
             (snd (fst (read_lines sample_loads earlier_lines EndOfInput
                          (snd (fst (subscribe_begin "events" h_print init))))))
             (snd (read_lines sample_loads earlier_lines EndOfInput
                     (snd (fst (subscribe_begin "events" h_print init))))));
      reflexivity.
Defined.

(** ** Further properties: subscriptions *)

Lemma subscribe_begin_handlers topic h c o c1 t :
  subscribe_begin topic h c = (o, c1, t) ->
  message_handlers c1
  = <[topic := default [] (message_handlers c !! topic) ++ [h]]> (message_handlers c).
Proof.
  unfold subscribe_begin, store_handler. intros H.
  erewrite bind_ok in H by reflexivity. rewrite call_begin_run in H.
  assert (message_handlers c1
          = alter (fun l => l ++ [h]) topic
              (message_handlers
                 (match message_handlers c !! topic with
                  | Some _ => c
                  | None => set_message_handlers (<[topic := []]> (message_handlers c)) c
                  end))) as ->.
  { by injection H as _ <- _. }
  apply map_eq. intros i. destruct (decide (i = topic)) as [->|Hne].
  - rewrite lookup_alter_eq, lookup_insert_eq.
    destruct (message_handlers c !! topic) as [l|] eqn:E; cbn.
    + by rewrite E.
    + by rewrite lookup_insert_eq.
  - rewrite lookup_alter_ne, lookup_insert_ne by done.
    destruct (message_handlers c !! topic); cbn; [done|].
    by rewrite lookup_insert_ne.
Qed.

Lemma unsubscribe_begin_handlers topic c o c1 t :
  unsubscribe_begin topic c = (o, c1, t) ->
  message_handlers c1 = delete topic (message_handlers c).
Proof.
  unfold unsubscribe_begin. intros H.
  destruct (drop_handlers_run topic c) as (c' & Hrun & Hhs & _).
  erewrite bind_ok in H by exact Hrun. rewrite call_begin_run in H.
  by injection H as _ <- _.
Qed.

Lemma push_reaches topic hs m c :
  message_handlers c !! topic = Some hs ->
  is_message m = true -> get "topic" m = JStr topic -> Forall (contained m) hs ->
  _handle_response m c
  = (Ok tt, c, map (fun e => (c, e)) (flat_map (handler_events m) hs)).
Proof.
  intros Hhs Hm Ht Hc. rewrite handle_response_message by done.
  assert (subscribers c m = hs) as Hs.
  { unfold subscribers. rewrite Ht. cbn. by rewrite Hhs. }
  rewrite handle_message_contained; rewrite ?Hs, ?Ht; done.
Qed.

(** X6. Once the first part of [subscribe] has run, whether or not the
    command could be written and whatever the broker answers, a push to
    the topic calls the handlers registered before and then the new one:
    a subscription that fails is not taken back. *)
Theorem subscribed_handler_receives_pushes json_loads topic h c o c1 t
    lines fin o2 c2 t2 m :
  subscribe_begin topic h c = (o, c1, t) ->
  read_lines json_loads lines fin c1 = (o2, c2, t2) ->
  is_message m = true -> get "topic" m = JStr topic ->
  Forall (contained m) (default [] (message_handlers c !! topic) ++ [h]) ->
  (forall a, snd (fst (subscribe_end a c2)) = c2)
  /\ exists t3,
       _handle_response m c2 = (Ok tt, c2, t3)
       /\ events_of t3
          = flat_map (handler_events m)
                     (default [] (message_handlers c !! topic) ++ [h]).
Proof.
  intros Hb Hr Hm Ht Hc. split.
  - intros a. unfold subscribe_end, bind. rewrite result_of_run.
    destruct (is_empty _); [done|]. by destruct (negb _).
  - apply subscribe_begin_handlers in Hb. apply read_lines_handlers in Hr.
    eexists. split; [|apply events_of_at].
    apply (push_reaches topic); try done.
    by rewrite Hr, Hb, lookup_insert_eq.
Qed.

Lemma subscribed_handler_receives_pushes_witness :
  let c := set_stdin_closed true two_waiting in
  let r := subscribe_begin "events" h_print c in
  let c2 := snd (fst (read_lines sample_loads earlier_lines EndOfInput (snd (fst r)))) in
  fst (fst r) = Raise ValueError
  /\ (forall a, snd (fst (subscribe_end a c2)) = c2)
  /\ exists t3,
       _handle_response (push_events "x") c2 = (Ok tt, c2, t3)
       /\ events_of t3
          = flat_map (handler_events (push_events "x")) [h_broken; h_print; h_print].
Proof.
  intros c r c2. split; [reflexivity|].
  apply (subscribed_handler_receives_pushes sample_loads "events" h_print c
           (fst (fst r)) (snd (fst r)) (snd r) earlier_lines EndOfInput
           (fst (fst (read_lines sample_loads earlier_lines EndOfInput (snd (fst r)))))
           c2
           (snd (read_lines sample_loads earlier_lines EndOfInput (snd (fst r))))
           (push_events "x")); try reflexivity.
  repeat constructor; discriminate.
Defined.

(** X7. [subscribe] and [unsubscribe] change the handlers of their own
    topic only: the list of every other topic is the same afterwards. *)
Theorem other_topics_are_untouched topic topic' h c :
  topic' <> topic ->
  message_handlers (snd (fst (subscribe_begin topic h c))) !! topic'
  = message_handlers c !! topic'
  /\ message_handlers (snd (fst (unsubscribe_begin topic c))) !! topic'
     = message_handlers c !! topic'.
Proof.
  intros Hne. split.
  - destruct (subscribe_begin topic h c) as [[o c1] t] eqn:E.
    apply subscribe_begin_handlers in E. cbn. rewrite E.
    by rewrite lookup_insert_ne.
  - destruct (unsubscribe_begin topic c) as [[o c1] t] eqn:E.
    apply unsubscribe_begin_handlers in E. cbn. rewrite E.
    by rewrite lookup_delete_ne.
Qed.

Lemma other_topics_are_untouched_witness :
  message_handlers (snd (fst (subscribe_begin "alerts" h_print two_waiting))) !! "events"
  = message_handlers two_waiting !! "events"
  /\ message_handlers (snd (fst (unsubscribe_begin "alerts" two_waiting))) !! "events"
     = message_handlers two_waiting !! "events".
Proof.
  apply (other_topics_are_untouched "alerts" "events" h_print two_waiting).
  discriminate.
Defined.

(** X8. [unsubscribe] of a topic that has no handlers raises nothing and
    changes no subscription; on an open pipe the command is written all
    the same and a callback waits for its reply. *)
Theorem unsubscribe_of_unknown_topic topic c :
  message_handlers c !! topic = None ->
  stdin_closed c = false ->
  exists a c1 t,
    unsubscribe_begin topic c = (Ok a, c1, t)
    /\ message_handlers c1 = message_handlers c
    /\ events_of t = [EWrite (numbered (unsubscribe_command topic) c)]
    /\ callbacks c1 !! (request_id c + 1) = Some a.
Proof.
  intros Hnone Hopen.
  destruct (unsubscribe_begin topic c) as [[o c1] t] eqn:E.
  pose proof (unsubscribe_begin_handlers _ _ _ _ _ E) as Hh.
  unfold unsubscribe_begin in E.
  destruct (drop_handlers_run topic c) as (c' & Hrun & _ & Hcl & Hrid & Hcb & Hhp).
  erewrite bind_ok in E by exact Hrun. rewrite call_begin_run in E.
  rewrite Hcl, Hopen in E. injection E as <- <- <-.
  eexists _, _, _. split; [done|]. split; [|split].
  - rewrite Hh. by apply delete_id.
  - cbn. unfold numbered. by rewrite Hrid.
  - cbn. rewrite Hrid. apply lookup_insert_eq.
Qed.

Lemma unsubscribe_of_unknown_topic_witness :
  exists a c1 t,
    unsubscribe_begin "alerts" two_waiting = (Ok a, c1, t)
    /\ message_handlers c1 = message_handlers two_waiting
    /\ events_of t = [EWrite (numbered (unsubscribe_command "alerts") two_waiting)]
    /\ callbacks c1 !! (request_id two_waiting + 1) = Some a.
Proof.
  apply (unsubscribe_of_unknown_topic "alerts" two_waiting); reflexivity.
Defined.

(** X9. A [subscribe] that follows an [unsubscribe] of the same topic
    starts a new list: the handler is the only one of the topic, the
    handlers removed before do not come back. *)
Theorem resubscribing_starts_afresh topic h c o1 c1 t1 o2 c2 t2 :
  unsubscribe_begin topic c = (o1, c1, t1) ->
  subscribe_begin topic h c1 = (o2, c2, t2) ->
  message_handlers c2 !! topic = Some [h].
Proof.
  intros Hu Hs. apply unsubscribe_begin_handlers in Hu.
  apply subscribe_begin_handlers in Hs.
  by rewrite Hs, Hu, lookup_insert_eq, lookup_delete_eq.
Qed.

Lemma resubscribing_starts_afresh_witness :
  let c1 := snd (fst (unsubscribe_begin "events" two_waiting)) in
  message_handlers (snd (fst (subscribe_begin "events" h_exit c1))) !! "events"
  = Some [h_exit].
Proof.
  intros c1.
  apply (resubscribing_starts_afresh "events" h_exit two_waiting
           (fst (fst (unsubscribe_begin "events" two_waiting))) c1
           (snd (unsubscribe_begin "events" two_waiting))
           (fst (fst (subscribe_begin "events" h_exit c1)))
           (snd (fst (subscribe_begin "events" h_exit c1)))
           (snd (subscribe_begin "events" h_exit c1))); reflexivity.
Defined.

(** ** Further properties: shutdown *)

(** X10. On an open pipe [shutdown] writes its command under the next
    identifier, closes the pipe and clears [running].  It registers no
    callback and waits for nothing; the callbacks, results and handlers of
    other calls are left as they are. *)
Theorem shutdown_closes_the_pipe c :
  stdin_closed c = false ->
  exists c1 t,
    shutdown c = (Ok tt, c1, t)
    /\ events_of t = [EWrite (numbered {[ "op" := JStr "shutdown" ]} c); EClose]
    /\ stdin_closed c1 = true /\ running c1 = false
    /\ request_id c1 = request_id c + 1
    /\ callbacks c1 = callbacks c /\ heap c1 = heap c
    /\ message_handlers c1 = message_handlers c.
Proof.
  intros Hopen. rewrite shutdown_run, Hopen. eexists _, _.
  split; [reflexivity|]. by repeat split.
Qed.

Lemma shutdown_closes_the_pipe_witness :
  exists c1 t,
    shutdown two_waiting = (Ok tt, c1, t)
    /\ events_of t
       = [EWrite (numbered {[ "op" := JStr "shutdown" ]} two_waiting); EClose]
    /\ stdin_closed c1 = true /\ running c1 = false
    /\ request_id c1 = request_id two_waiting + 1
    /\ callbacks c1 = callbacks two_waiting /\ heap c1 = heap two_waiting
    /\ message_handlers c1 = message_handlers two_waiting.
Proof. apply (shutdown_closes_the_pipe two_waiting). reflexivity. Defined.

Lemma call_begin_closed command c :
  stdin_closed c = true ->
  exists c1,
    (let! a := new_callback in _send command (Some a) >>> ret a) c
    = (Raise ValueError, c1, [])
    /\ request_id c1 = request_id c + 1
    /\ callbacks c1 !! (request_id c + 1) = Some (new_addr c).
Proof.
  intros Hcl. rewrite call_begin_run, Hcl. eexists. split; [done|].
  split; [done|]. cbn. apply lookup_insert_eq.
Qed.

(** X11. On a closed pipe, as after [shutdown], every call raises
    [ValueError] and writes nothing.  The identifier is consumed all the
    same, and the callback of the call stays registered under it although
    no command went out.  A second [shutdown] raises as well, before it
    touches [running]. *)
Theorem calls_on_a_closed_pipe_raise c topic payload metadata h :
  stdin_closed c = true ->
  (exists c1, ping_begin c = (Raise ValueError, c1, [])
              /\ request_id c1 = request_id c + 1
              /\ is_Some (callbacks c1 !! (request_id c + 1)))
  /\ (exists c1, publish_begin topic payload metadata c = (Raise ValueError, c1, [])
                 /\ request_id c1 = request_id c + 1
                 /\ is_Some (callbacks c1 !! (request_id c + 1)))
  /\ (exists c1, subscribe_begin topic h c = (Raise ValueError, c1, [])
                 /\ request_id c1 = request_id c + 1
                 /\ is_Some (callbacks c1 !! (request_id c + 1)))
  /\ (exists c1, unsubscribe_begin topic c = (Raise ValueError, c1, [])
                 /\ request_id c1 = request_id c + 1
                 /\ is_Some (callbacks c1 !! (request_id c + 1)))
  /\ (exists c1, shutdown c = (Raise ValueError, c1, [])
                 /\ request_id c1 = request_id c + 1
                 /\ running c1 = running c
                 /\ callbacks c1 = callbacks c).
Proof.
  intros Hcl. repeat split.
  - destruct (call_begin_closed ping_command c Hcl) as (c1 & H & Hr & Hk).
    exists c1. by rewrite Hk.
  - destruct (call_begin_closed (publish_command topic payload metadata) c Hcl)
      as (c1 & H & Hr & Hk).
    exists c1. by rewrite Hk.
  - destruct (store_handler_run topic h c) as (c' & Hrun & _ & Hcl' & Hrid & _).
    destruct (call_begin_closed (subscribe_command topic) c') as (c1 & H & Hr & Hk);
      [congruence|].
    exists c1. unfold subscribe_begin. erewrite bind_ok by exact Hrun.
    rewrite H. rewrite <- Hrid. by rewrite Hk.
  - destruct (drop_handlers_run topic c) as (c' & Hrun & _ & Hcl' & Hrid & _).
    destruct (call_begin_closed (unsubscribe_command topic) c') as (c1 & H & Hr & Hk);
      [congruence|].
    exists c1. unfold unsubscribe_begin. erewrite bind_ok by exact Hrun.
    rewrite H. rewrite <- Hrid. by rewrite Hk.
  - rewrite shutdown_run, Hcl. by eexists.
Qed.

Lemma calls_on_a_closed_pipe_raise_witness :
  let c := snd (fst (shutdown two_waiting)) in
  (exists c1, ping_begin c = (Raise ValueError, c1, [])
              /\ request_id c1 = request_id c + 1
              /\ is_Some (callbacks c1 !! (request_id c + 1)))
  /\ (exists c1, publish_begin "events" (JStr "hello") None c = (Raise ValueError, c1, [])
                 /\ request_id c1 = request_id c + 1
                 /\ is_Some (callbacks c1 !! (request_id c + 1)))
  /\ (exists c1, subscribe_begin "events" h_print c = (Raise ValueError, c1, [])
                 /\ request_id c1 = request_id c + 1
                 /\ is_Some (callbacks c1 !! (request_id c + 1)))
  /\ (exists c1, unsubscribe_begin "events" c = (Raise ValueError, c1, [])
                 /\ request_id c1 = request_id c + 1
                 /\ is_Some (callbacks c1 !! (request_id c + 1)))
  /\ (exists c1, shutdown c = (Raise ValueError, c1, [])
                 /\ request_id c1 = request_id c + 1
                 /\ running c1 = running c
                 /\ callbacks c1 = callbacks c).
Proof.
  apply (calls_on_a_closed_pipe_raise (snd (fst (shutdown two_waiting)))
           "events" (JStr "hello") None h_print).
  reflexivity.
Defined.

(** ** Further properties: the read loop *)

Lemma read_responses_of_raise json_loads l rest fin c e c1 t :
  read_line json_loads l c = (Raise e, c1, t) ->
  _read_responses json_loads (l :: rest) fin c
  = if is_Exception e
    then (Ok tt, set_running false c1, t ++ [(c1, EPrint (ReaderErrorLine e))])
    else (Raise e, set_running false c1, t).
Proof.
  intros H. unfold _read_responses, try_finally, try_except.
  rewrite read_lines_cons. erewrite bind_raise by exact H.
  destruct (is_Exception e); cbn; by rewrite app_nil_r.
Qed.

(** X12. A line that is not JSON is reported on the error stream and the
    loop goes on with the next line, from the same state. *)
Theorem malformed_line_is_reported_and_skipped json_loads l msg c :
  strip l <> "" ->
  json_loads (strip l) = JSONDecodeError msg ->
  read_line json_loads l c = (Ok tt, c, [(c, EPrint (ParseErrorLine msg))])
  /\ forall rest fin,
       read_lines json_loads (l :: rest) fin c
       = (let '(o, c1, t) := read_lines json_loads rest fin c in
          (o, c1, (c, EPrint (ParseErrorLine msg)) :: t)).
Proof.
  intros Hne Hd.
  assert (read_line json_loads l c = (Ok tt, c, [(c, EPrint (ParseErrorLine msg))]))
    as H.
  { unfold read_line. rewrite bool_decide_eq_false_2 by done. by rewrite Hd. }
  split; [done|]. intros rest fin. rewrite read_lines_cons.
  by erewrite bind_ok by exact H.
Qed.

Lemma malformed_line_is_reported_and_skipped_witness :
  let l := "{not json" +:+ newline in
  read_line sample_loads l two_waiting
  = (Ok tt, two_waiting, [(two_waiting, EPrint (ParseErrorLine "Expecting value"))])
  /\ forall rest fin,
       read_lines sample_loads (l :: rest) fin two_waiting
       = (let '(o, c1, t) := read_lines sample_loads rest fin two_waiting in
          (o, c1, (two_waiting, EPrint (ParseErrorLine "Expecting value")) :: t)).
Proof.
  apply (malformed_line_is_reported_and_skipped sample_loads
           ("{not json" +:+ newline) "Expecting value" two_waiting).
  - vm_compute. discriminate.
  - reflexivity.
Defined.

(** X13. A line that is valid JSON but not an object (a number, a string,
    a list, null) ends the reader: [.get] raises [AttributeError], the
    error is printed as a reader error, [running] is cleared and the lines
    after it are never read. *)
Theorem non_object_line_ends_the_reader json_loads l v rest fin c :
  strip l <> "" ->
  json_loads (strip l) = Decoded v ->
  (forall d, v <> JDict d) ->
  _read_responses json_loads (l :: rest) fin c
  = (Ok tt, set_running false c, [(c, EPrint (ReaderErrorLine AttributeError))]).
Proof.
  intros Hne Hd Hv.
  assert (read_line json_loads l c = (Raise AttributeError, c, [])) as H.
  { unfold read_line. rewrite bool_decide_eq_false_2 by done. rewrite Hd.
    destruct v; try done. by destruct (Hv d). }
  by rewrite (read_responses_of_raise _ _ _ _ _ _ _ _ H).
Qed.

Lemma non_object_line_ends_the_reader_witness :
  _read_responses number_loads [line_number; line_reply "1"] EndOfInput two_waiting
  = (Ok tt, set_running false two_waiting,
     [(two_waiting, EPrint (ReaderErrorLine AttributeError))]).
Proof.
  apply (non_object_line_ends_the_reader number_loads line_number (JInt 5)
           [line_reply "1"] EndOfInput two_waiting).
  - vm_compute. discriminate.
  - reflexivity.
  - discriminate.
Defined.

(** X14. A record whose key is a list or an object ends the reader as
    well: the membership test raises [TypeError] for the [topic] of a push
    message and for the [request_id] of any other record, and the lines
    after it are never read. *)
Theorem unhashable_key_ends_the_reader json_loads l data rest fin c :
  strip l <> "" ->
  json_loads (strip l) = Decoded (JDict data) ->
  hashable (get (if is_message data then "topic" else "request_id") data) = false ->
  _read_responses json_loads (l :: rest) fin c
  = (Ok tt, set_running false c, [(c, EPrint (ReaderErrorLine TypeError))]).
Proof.
  intros Hne Hd Hh.
  assert (read_line json_loads l c = (Raise TypeError, c, [])) as H.
  { rewrite (read_line_decoded _ _ data) by done.
    destruct (is_message data) eqn:Em.
    - rewrite handle_response_message by done. unfold handle_message.
      by rewrite Hh.
    - by apply handle_response_unhashable. }
  by rewrite (read_responses_of_raise _ _ _ _ _ _ _ _ H).
Qed.

Lemma unhashable_key_ends_the_reader_witness :
  _read_responses list_id_loads [line_list_id; line_reply "1"] EndOfInput two_waiting
  = (Ok tt, set_running false two_waiting,
     [(two_waiting, EPrint (ReaderErrorLine TypeError))]).
Proof.
  apply (unhashable_key_ends_the_reader list_id_loads line_list_id reply_list_id
           [line_reply "1"] EndOfInput two_waiting).
  - vm_compute. discriminate.
  - reflexivity.
  - reflexivity.
Defined.

Lemma run_handlers_exit pre h post data c :
  Forall (contained data) pre -> h data = HExit ->
  run_handlers (pre ++ h :: post) data c
  = (Raise BaseExit, c,
     map (fun e => (c, e)) (flat_map (handler_events data) pre ++ [EInvoke h data])).
Proof.
  intros Hpre Hh. induction Hpre as [|h' pre Hh' _ IH].
  - cbn [app run_handlers flat_map]. unfold bind at 1 2, emit at 1.
    by rewrite Hh.
  - cbn [app run_handlers flat_map]. unfold bind at 1 2, emit at 1.
    unfold handler_events at 1. unfold contained in Hh'.
    destruct (h' data) eqn:E; [| |done]; cbn; rewrite IH; cbn; done.
Qed.

(** X15. A handler that leaves with an exception outside [Exception]
    (such as [SystemExit]) is not contained: the handlers after it are not
    called for the message, the exception leaves the reader thread without
    a reader error being printed, [running] is cleared and the lines after
    the message are never read. *)
Theorem handler_exit_ends_the_reader json_loads l m topic pre h post rest fin c :
  strip l <> "" ->
  json_loads (strip l) = Decoded (JDict m) ->
  is_message m = true -> get "topic" m = JStr topic ->
  message_handlers c !! topic = Some (pre ++ h :: post) ->
  Forall (contained m) pre -> h m = HExit ->
  exists t,
    _read_responses json_loads (l :: rest) fin c
    = (Raise BaseExit, set_running false c, t)
    /\ events_of t = flat_map (handler_events m) pre ++ [EInvoke h m].
Proof.
  intros Hne Hd Hm Ht Hhs Hpre Hh.
  assert (read_line json_loads l c
          = (Raise BaseExit, c,
             map (fun e => (c, e))
                 (flat_map (handler_events m) pre ++ [EInvoke h m]))) as H.
  { rewrite (read_line_decoded _ _ m) by done.
    rewrite handle_response_message by done.
    unfold handle_message, bind, read. rewrite Ht. cbn. rewrite Hhs.
    by rewrite run_handlers_exit. }
  eexists. split.
  - by rewrite (read_responses_of_raise _ _ _ _ _ _ _ _ H).
  - apply events_of_at.
Qed.

Lemma handler_exit_ends_the_reader_witness :
  exists t,
    _read_responses sample_loads [line_push; line_reply "1"] EndOfInput with_exit
    = (Raise BaseExit, set_running false with_exit, t)
    /\ events_of t
       = flat_map (handler_events (push_events "x")) [h_broken]
         ++ [EInvoke h_exit (push_events "x")].
Proof.
  apply (handler_exit_ends_the_reader sample_loads line_push (push_events "x")
           "events" [h_broken] h_exit [h_print] [line_reply "1"] EndOfInput
           with_exit); try reflexivity.
  - vm_compute. discriminate.
  - repeat constructor. discriminate.
Defined.







Lemma lstrip_head s :
  lstrip s = "" \/ exists a r, lstrip s = String a r /\ py_isspace a = false.
Proof.
  induction s as [|a s IH]; [by left|]. cbn.
  destruct (py_isspace a) eqn:E; [done|]. right. by exists a, s.
Qed.

Lemma rstrip_cons a r b r' :
  rstrip r = String b r' -> rstrip (String a r) = String a (String b r').
Proof. intros H. cbn. by rewrite H. Qed.

Lemma rstrip_idempotent s : rstrip (rstrip s) = rstrip s.
Proof.
  induction s as [|a s IH]; [done|].
  destruct (rstrip s) as [|b r'] eqn:E.
  - assert (rstrip (String a s) = if py_isspace a then "" else String a "") as ->
      by (cbn; by rewrite E).
    destruct (py_isspace a) eqn:Ea; [done|]. cbn. by rewrite Ea.
  - rewrite (rstrip_cons a s b r' E). by apply rstrip_cons.
Qed.

Lemma strip_idempotent s : strip (strip s) = strip s.
Proof.
  unfold strip.
  assert (lstrip (rstrip (lstrip s)) = rstrip (lstrip s)) as ->;
    [|apply rstrip_idempotent].
  destruct (lstrip_head s) as [-> | (a & r & -> & Ha)]; [done|].
  cbn [rstrip]. destruct (rstrip r).
  - rewrite Ha. cbn. by rewrite Ha.
  - cbn. by rewrite Ha.
Qed.

(** X18. Whitespace around a line does not matter to the reader: a line
    and its stripped text are processed in exactly the same way. *)
Theorem surrounding_whitespace_is_ignored json_loads line c :
  read_line json_loads (strip line) c = read_line json_loads line c.
Proof. unfold read_line. by rewrite strip_idempotent. Qed.

(** ** Further properties: the diagnostic stream *)

Lemma echo_lines_out lines fin :
  snd (echo_lines lines fin) = map (fun l => "shortbus: " +:+ strip l) lines
  /\ fst (echo_lines lines fin)
     = match fin with EndOfInput => Ok tt | ReadFault e => Raise e end.
Proof.
  induction lines as [|l rest [IH1 IH2]]; [done|]. cbn.
  destruct (echo_lines rest fin) as [o out]. cbn in *. by rewrite IH1, IH2.
Qed.

(** X19. [_read_stderr] echoes every line of the diagnostic stream, blank
    ones included, stripped and prefixed with [shortbus: ], in order.  A
    read fault that is an [Exception] is swallowed: the thread ends
    normally and prints nothing about it. *)
Theorem stderr_is_echoed_line_by_line lines fin :
  snd (_read_stderr lines fin) = map (fun l => "shortbus: " +:+ strip l) lines
  /\ fst (_read_stderr lines fin)
     = match fin with
       | ReadFault e => if is_Exception e then Ok tt else Raise e
       | EndOfInput => Ok tt
       end.
Proof.
  unfold _read_stderr. destruct (echo_lines_out lines fin) as [H1 H2].
  destruct (echo_lines lines fin) as [o out]. cbn in *. subst.
  destruct fin as [|e]; [done|]. by destruct (is_Exception e).
Qed.

(** ** Further properties: an unanswered unsubscribe *)

(** X20. An [unsubscribe] whose reply did not arrive during the wait does
    not raise: it returns the empty record, and its callback stays
    registered. *)
Theorem unanswered_unsubscribe_returns_empty json_loads c k a lines fin o c2 t2 :
  pending c k a ->
  decoded_records json_loads lines (fun d => ~ answers d k) ->
  read_lines json_loads lines fin c = (o, c2, t2) ->
  unsubscribe_end a c2 = (Ok ∅, c2, [])
  /\ callbacks c2 !! k = Some a.
Proof.
  intros Hp Hn Hr.
  assert (pending c2 k a) as (Hk & Ha & _) by by eapply read_lines_pending.
  split; [|done]. unfold unsubscribe_end. rewrite result_of_run. by rewrite Ha.
Qed.

Lemma two_waiting_closed_registry : closed_registry two_waiting.
Proof.
  intros k a Hl.
  destruct (decide (k = 1)) as [->|H1].
  { vm_compute in Hl. injection Hl as <-. by eexists. }
  destruct (decide (k = 2)) as [->|H2].
  { vm_compute in Hl. injection Hl as <-. by eexists. }
  change (callbacks two_waiting)
    with (<[1 := 0%nat]> (<[2 := 1%nat]> ∅) : gmap Z nat) in Hl.
  by rewrite !lookup_insert_ne, lookup_empty in Hl by done.
Qed.

Lemma unanswered_unsubscribe_returns_empty_witness :
  let c := snd (fst (unsubscribe_begin "events" two_waiting)) in
  let c2 := snd (fst (read_lines sample_loads [line_push] EndOfInput c)) in
  unsubscribe_end 2%nat c2 = (Ok ∅, c2, [])
  /\ callbacks c2 !! 3 = Some 2%nat.
Proof.
  intros c c2.
  apply (unanswered_unsubscribe_returns_empty sample_loads c 3 2%nat [line_push]
           EndOfInput
           (fst (fst (read_lines sample_loads [line_push] EndOfInput c))) c2
           (snd (read_lines sample_loads [line_push] EndOfInput c))).
  - apply (unsubscribe_begin_ok "events" two_waiting 2%nat c
             (snd (unsubscribe_begin "events" two_waiting))).
    + apply two_waiting_closed_registry.
    + reflexivity.
  - intros l data Hin Hd (Hm & _).
    apply list_elem_of_singleton in Hin as ->.
    vm_compute in Hd. injection Hd as <-. vm_compute in Hm. discriminate.
  - reflexivity.
Defined.
